(** * NexTicket server: the ticket inventory and booking consistency core

    A shallow embedding of the Express/MongoDB handlers of [index.js] that
    mutate tickets, bookings and users, and the properties of the
    specification that concern them.

    Layers, bottom up:
    - [Js]: the JavaScript values a document field can hold, with
      truthiness, [includes] and what the driver writes for [undefined].
    - [Mongo]: documents, query filters, the [$set] and [$inc] update
      operators and the collection operations the handlers call.
    - [Runtime]: what the handlers take from bson's [ObjectId] and from the
      conversion of strings to numbers, as an interface.
    - [Server]: the handlers, as computations over the four collections
      in a state-and-exception monad; [try { ... } catch] becomes [run].
      The current time and the id the driver would generate are inputs.

    Restrictions of the model: numbers are integers or NaN; arrays and nested
    objects do not occur as field values; object keys are plain field names;
    each handler runs to completion before the next one starts. The routes
    that write the database are all modelled, with the reads of one user,
    of one ticket and of the advertised tickets. The listings that sort,
    the search with its regular expressions and pagination, the vendor
    statistics and the payment intent are not. *)

From Stdlib Require Import ZArith NArith Ascii Lia.
From stdpp Require Import base strings gmap list.

Local Open Scope Z_scope.

(** ** JavaScript values *)

Module Js.

(** A JavaScript number, restricted to the integers and NaN. *)
Inductive jsnum : Type :=
| Int (z : Z)
| NaN.

(** A field value of a stored document or of a JSON request body.
    An absent key ([undefined]) is a lookup that returns [None]. *)
Inductive value : Type :=
| VNull
| VBool (b : bool)
| VNum (n : jsnum)
| VStr (s : string)
| VDate (t : Z)        (* a [Date], in milliseconds since the epoch *)
| VId (o : N).         (* an [ObjectId], as the number its 12 bytes spell *)

#[export] Instance jsnum_eq_dec : EqDecision jsnum.
Proof. solve_decision. Defined.

#[export] Instance value_eq_dec : EqDecision value.
Proof. solve_decision. Defined.

(** [x + y] on numbers. *)
Definition add (x y : jsnum) : jsnum :=
  match x, y with
  | Int a, Int b => Int (a + b)
  | _, _ => NaN
  end.

(** [-x] on numbers. *)
Definition neg (x : jsnum) : jsnum :=
  match x with
  | Int a => Int (- a)
  | NaN => NaN
  end.

(** [if (v)]: ToBoolean. *)
Definition truthy (v : option value) : bool :=
  match v with
  | None | Some VNull => false
  | Some (VBool b) => b
  | Some (VNum (Int z)) => negb (z =? 0)
  | Some (VNum NaN) => false
  | Some (VStr s) => negb (bool_decide (s = EmptyString))
  | Some (VDate _) | Some (VId _) => true
  end.

(** [arr.includes(v)] for an array of strings: strict equality. *)
Definition includes (arr : list string) (v : option value) : bool :=
  match v with
  | Some (VStr s) => bool_decide (s ∈ arr)
  | _ => false
  end.

(** What the driver serialises for a field whose JavaScript value may be
    [undefined]: with the default options, [undefined] is written as
    [null]. *)
Definition bson (v : option value) : value :=
  match v with
  | Some x => x
  | None => VNull
  end.

End Js.

Export Js.

Abbreviation doc := (gmap string value).

(** An object literal [{ k1: v1, ..., kn: vn }], later keys winning. *)
Definition obj (fields : list (string * value)) : doc :=
  foldl (fun d kv => <[kv.1 := kv.2]> d) ∅ fields.

(** ** The MongoDB operations used by the handlers *)

Module Mongo.

(** A query [{ k1: v1, ..., kn: vn }]: every listed field equals the given
    value; a [null] in the query also matches a missing field. *)
Definition filter : Type := list (string * value).

Definition field_matches (d : doc) (kv : string * value) : bool :=
  match d !! kv.1 with
  | Some v => bool_decide (v = kv.2)
  | None => bool_decide (kv.2 = VNull)
  end.

Definition matches (q : filter) (d : doc) : bool :=
  forallb (field_matches d) q.

(** Update documents: [{ $set: fields }] and [{ $inc: { k: n } }]. *)
Inductive update : Type :=
| USet (fields : doc)
| UInc (k : string) (n : jsnum).

(** [$inc] creates a missing field, adds to a numeric one and is a write
    error on anything else (including [null]). *)
Definition apply_update (u : update) (d : doc) : option doc :=
  match u with
  | USet fields => Some (fields ∪ d)
  | UInc k n =>
      match d !! k with
      | None => Some (<[k := VNum n]> d)
      | Some (VNum m) => Some (<[k := VNum (add m n)]> d)
      | Some _ => None
      end
  end.

(** [findOne]: the first document that matches. *)
Definition findOne (q : filter) (c : list doc) : option doc :=
  List.find (matches q) c.

(** [countDocuments]. *)
Definition countDocuments (q : filter) (c : list doc) : nat :=
  length (List.filter (matches q) c).

(** [updateOne]: updates the first document that matches. The result is
    [matchedCount], or [None] on a write error, and the new collection. *)
Fixpoint updateOne (q : filter) (u : update) (c : list doc)
  : option nat * list doc :=
  match c with
  | [] => (Some 0%nat, [])
  | d :: c' =>
      if matches q d then
        match apply_update u d with
        | Some d' => (Some 1%nat, d' :: c')
        | None => (None, d :: c')
        end
      else
        let '(n, c'') := updateOne q u c' in (n, d :: c'')
  end.

(** [updateMany]: updates every document that matches, in order; a write
    error stops it, the documents before the failing one staying updated. *)
Fixpoint updateMany (q : filter) (u : update) (c : list doc)
  : option nat * list doc :=
  match c with
  | [] => (Some 0%nat, [])
  | d :: c' =>
      if matches q d then
        match apply_update u d with
        | Some d' => let '(n, c'') := updateMany q u c' in (S <$> n, d' :: c'')
        | None => (None, d :: c')
        end
      else
        let '(n, c'') := updateMany q u c' in (n, d :: c'')
  end.

(** [insertOne]: the driver adds a generated [_id] ([gen]) to a document
    whose [_id] is missing or [null]; the server refuses a duplicate [_id]. *)
Definition with_id (gen : N) (d : doc) : doc :=
  match d !! "_id" with
  | None | Some VNull => <["_id" := VId gen]> d
  | Some _ => d
  end.

Definition has_id (i : option value) (d : doc) : bool :=
  bool_decide (d !! "_id" = i).

Definition insertOne (gen : N) (d : doc) (c : list doc)
  : option (list doc) :=
  let d' := with_id gen d in
  if existsb (has_id (d' !! "_id")) c then None else Some (c ++ [d']).

(** [find(q).toArray()], in the order of the collection, and
    [cursor.limit(n)] for a positive [n]. *)
Definition find (q : filter) (c : list doc) : list doc :=
  List.filter (matches q) c.

Definition limit (n : nat) (c : list doc) : list doc := take n c.

(** [deleteOne]: removes the first document that matches; the result is
    [deletedCount] and the new collection. *)
Fixpoint deleteOne (q : filter) (c : list doc) : nat * list doc :=
  match c with
  | [] => (0%nat, [])
  | d :: c' =>
      if matches q d then (1%nat, c')
      else let '(n, c'') := deleteOne q c' in (n, d :: c'')
  end.

End Mongo.

Export Mongo.

(** ** The server *)

(** The database [nexticket-db]: the four collections of [getCollections]. *)
Record db : Type := Db {
  users : list doc;
  tickets : list doc;
  bookings : list doc;
  transactions : list doc
}.

Inductive coll : Type := Users | Tickets | Bookings | Transactions.

Definition get (c : coll) (st : db) : list doc :=
  match c with
  | Users => users st
  | Tickets => tickets st
  | Bookings => bookings st
  | Transactions => transactions st
  end.

Definition put (c : coll) (l : list doc) (st : db) : db :=
  match c with
  | Users => Db l (tickets st) (bookings st) (transactions st)
  | Tickets => Db (users st) l (bookings st) (transactions st)
  | Bookings => Db (users st) (tickets st) l (transactions st)
  | Transactions => Db (users st) (tickets st) (bookings st) l
  end.

(** The HTTP response: [res.status(code).json({ message, ... })]. *)
Record response : Type := Resp { code : nat; message : string }.

#[export] Instance response_eq_dec : EqDecision response.
Proof. solve_decision. Defined.

(** A handler body: it reads and writes the database and may throw; what it
    wrote before throwing stays written. *)
Inductive outcome (A : Type) : Type :=
| Ret (a : A)
| Throw.

Arguments Ret {A} a.
Arguments Throw {A}.

Definition M (A : Type) : Type := db -> outcome A * db.

Definition ret {A} (a : A) : M A := fun st => (Ret a, st).

Definition throw {A} : M A := fun st => (Throw, st).

Definition bind {A B} (m : M A) (k : A -> M B) : M B :=
  fun st =>
    match m st with
    | (Ret a, st') => k a st'
    | (Throw, st') => (Throw, st')
    end.

Notation "'let*' x ':=' m 'in' k" := (bind m (fun x => k))
  (at level 10, x name, m at level 100, k at level 200).

(** [try { body } catch (error) { res.status(500).json({ message }) }]. *)
Definition run (failure : string) (body : M response) (st : db)
  : response * db :=
  match body st with
  | (Ret r, st') => (r, st')
  | (Throw, st') => (Resp 500 failure, st')
  end.

(** The collection methods, as handler steps. *)
Definition lift {A} (r : option A) : M A :=
  match r with
  | Some a => ret a
  | None => throw
  end.

Definition findOneM (c : coll) (q : filter) : M (option doc) :=
  fun st => (Ret (findOne q (get c st)), st).

Definition countDocumentsM (c : coll) (q : filter) : M nat :=
  fun st => (Ret (countDocuments q (get c st)), st).

Definition updateOneM (c : coll) (q : filter) (u : update) : M nat :=
  fun st =>
    let '(n, l) := updateOne q u (get c st) in lift n (put c l st).

Definition updateManyM (c : coll) (q : filter) (u : update) : M nat :=
  fun st =>
    let '(n, l) := updateMany q u (get c st) in lift n (put c l st).

Definition insertOneM (c : coll) (gen : N) (d : doc) : M unit :=
  fun st =>
    match insertOne gen d (get c st) with
    | Some l => (Ret tt, put c l st)
    | None => (Throw, st)
    end.

Definition deleteOneM (c : coll) (q : filter) : M nat :=
  fun st =>
    let '(n, l) := deleteOne q (get c st) in (Ret n, put c l st).

(** Library code the handlers call, taken as given:
    - [ObjectId_parse s] is bson's [new ObjectId(s)] on a string, [None]
      when it throws; [ObjectId.isValid(s)] says whether it would succeed;
    - [ObjectId_hex o] is [o.toString()];
    - [StringToNumber] is the conversion of a string to a number. *)
Class Runtime : Type := {
  ObjectId_parse : string -> option N;
  ObjectId_hex : N -> string;
  StringToNumber : string -> jsnum
}.

Section Server.

Context {rt : Runtime}.

(** ToNumber, as applied by the unary minus. *)
Definition ToNumber (v : option value) : jsnum :=
  match v with
  | None => NaN
  | Some VNull => Int 0
  | Some (VBool b) => Int (if b then 1 else 0)
  | Some (VNum n) => n
  | Some (VStr s) => StringToNumber s
  | Some (VDate t) => Int t
  | Some (VId o) => StringToNumber (ObjectId_hex o)
  end.

(** [new ObjectId(v)] on a field value: [undefined], [null] and numbers
    give a freshly generated id ([gen]), a string is parsed, an [ObjectId]
    is copied, anything else throws ([None]). *)
Definition new_ObjectId (gen : N) (v : option value) : option N :=
  match v with
  | None | Some VNull | Some (VNum _) => Some gen
  | Some (VStr s) => ObjectId_parse s
  | Some (VId o) => Some o
  | Some (VBool _) | Some (VDate _) => None
  end.

(** *** PATCH /api/users/:email/fraud *)
Definition markVendorFraudulent (email : string) (now : Z)
  : db -> response * db :=
  run "Failed to mark vendor as fraud" (
    let* matchedCount :=
      updateOneM Users [("email", VStr email); ("role", VStr "vendor")]
        (USet (obj [("isFraud", VBool true); ("updatedAt", VDate now)])) in
    if (matchedCount =? 0)%nat then
      ret (Resp 404 "Vendor not found")
    else
      let* _ :=
        updateManyM Tickets [("vendorEmail", VStr email)]
          (USet (obj [("verificationStatus", VStr "rejected")])) in
      ret (Resp 200 "Vendor marked as fraud and all tickets hidden")).

(** *** POST /api/tickets *)
Definition newTicket (ticketData : doc) (now : Z) : doc :=
  <["createdAt" := VDate now]>
    (<["isAdvertised" := VBool false]>
       (<["verificationStatus" := VStr "pending"]> ticketData)).

Definition createTicket (ticketData : doc) (now : Z) (gen : N)
  : db -> response * db :=
  run "Failed to add ticket" (
    let* _ := insertOneM Tickets gen (newTicket ticketData now) in
    ret (Resp 201 "Ticket added successfully. Waiting for admin approval.")).

(** *** PATCH /api/tickets/:id *)
Definition strip (updateData : doc) : doc :=
  delete "vendorEmail"
    (delete "isAdvertised"
       (delete "verificationStatus"
          (delete "_id" updateData))).

Definition updateTicket (id : string) (updateData : doc) (now : Z)
  : db -> response * db :=
  run "Failed to update ticket" (
    match ObjectId_parse id with
    | None => ret (Resp 400 "Invalid ticket ID")
    | Some oid =>
        let* matchedCount :=
          updateOneM Tickets [("_id", VId oid)]
            (USet (<["updatedAt" := VDate now]> (strip updateData))) in
        if (matchedCount =? 0)%nat then
          ret (Resp 404 "Ticket not found")
        else
          ret (Resp 200 "Ticket updated successfully")
    end).

(** *** PATCH /api/tickets/:id/verify *)

(** A word between double quotes, as in the message of the 400 below. *)
Definition quoted (s : string) : string :=
  String "034"%char (s +:+ String "034"%char EmptyString).

Definition verified_message (verificationStatus : option value) : string :=
  match verificationStatus with
  | Some (VStr s) => "Ticket " +:+ s +:+ " successfully"
  | _ => EmptyString
  end.

Definition verifyTicket (id : string) (body : doc) (now : Z)
  : db -> response * db :=
  run "Failed to verify ticket" (
    let verificationStatus := body !! "verificationStatus" in
    match ObjectId_parse id with
    | None => ret (Resp 400 "Invalid ticket ID")
    | Some oid =>
        if negb (includes ["approved"; "rejected"] verificationStatus) then
          ret (Resp 400
            ("Invalid verification status. Must be " +:+ quoted "approved"
             +:+ " or " +:+ quoted "rejected"))
        else
          let* matchedCount :=
            updateOneM Tickets [("_id", VId oid)]
              (USet (obj [("verificationStatus", bson verificationStatus);
                          ("verifiedAt", VDate now)])) in
          if (matchedCount =? 0)%nat then
            ret (Resp 404 "Ticket not found")
          else
            ret (Resp 200 (verified_message verificationStatus))
    end).

(** *** PATCH /api/tickets/:id/advertise *)

(** The query of the slot count, also that of GET /api/tickets/advertised. *)
Definition advertised_query : filter :=
  [("isAdvertised", VBool true); ("verificationStatus", VStr "approved")].

Definition advertise (id : string) (body : doc) (now : Z)
  : db -> response * db :=
  run "Failed to update advertisement status" (
    let isAdvertised := body !! "isAdvertised" in
    match ObjectId_parse id with
    | None => ret (Resp 400 "Invalid ticket ID")
    | Some oid =>
        let* full :=
          if truthy isAdvertised then
            let* advertisedCount :=
              countDocumentsM Tickets advertised_query in
            ret (6 <=? advertisedCount)%nat
          else ret false in
        if full then
          ret (Resp 400
            "Cannot advertise more than 6 tickets. Please unadvertise one first.")
        else
          let* matchedCount :=
            updateOneM Tickets
              [("_id", VId oid); ("verificationStatus", VStr "approved")]
              (USet (obj [("isAdvertised", bson isAdvertised);
                          ("advertisedAt",
                           if truthy isAdvertised then VDate now else VNull)])) in
          if (matchedCount =? 0)%nat then
            ret (Resp 404 "Ticket not found or not approved")
          else
            ret (Resp 200
              ("Ticket "
               +:+ (if truthy isAdvertised then "advertised" else "unadvertised")
               +:+ " successfully"))
    end).

(** The two operations of the advertisement allocator, as requests. *)
Definition grantSlot (id : string) (now : Z) : db -> response * db :=
  advertise id (obj [("isAdvertised", VBool true)]) now.

Definition revokeSlot (id : string) (now : Z) : db -> response * db :=
  advertise id (obj [("isAdvertised", VBool false)]) now.

(** *** POST /api/bookings *)
Definition createBooking (bookingData : doc) (now : Z) (gen : N)
  : db -> response * db :=
  run "Failed to create booking" (
    let* _ :=
      insertOneM Bookings gen (<["createdAt" := VDate now]> bookingData) in
    ret (Resp 201 "Booking created successfully")).

(** *** PATCH /api/bookings/:id/accept and /reject *)
Definition acceptBooking (id : string) (now : Z) : db -> response * db :=
  run "Failed to accept booking" (
    match ObjectId_parse id with
    | None => ret (Resp 400 "Invalid booking ID")
    | Some oid =>
        let* matchedCount :=
          updateOneM Bookings [("_id", VId oid)]
            (USet (obj [("status", VStr "accepted");
                        ("acceptedAt", VDate now)])) in
        if (matchedCount =? 0)%nat then
          ret (Resp 404 "Booking not found")
        else
          ret (Resp 200 "Booking accepted successfully")
    end).

Definition rejectBooking (id : string) (now : Z) : db -> response * db :=
  run "Failed to reject booking" (
    match ObjectId_parse id with
    | None => ret (Resp 400 "Invalid booking ID")
    | Some oid =>
        let* matchedCount :=
          updateOneM Bookings [("_id", VId oid)]
            (USet (obj [("status", VStr "rejected");
                        ("rejectedAt", VDate now)])) in
        if (matchedCount =? 0)%nat then
          ret (Resp 404 "Booking not found")
        else
          ret (Resp 200 "Booking rejected successfully")
    end).

(** *** PATCH /api/bookings/:id/pay *)

(** The ledger step: [$inc: { quantity: -q }] on the ticket. *)
Definition reserve (ticketId : N) (q : jsnum) : M nat :=
  updateOneM Tickets [("_id", VId ticketId)] (UInc "quantity" (neg q)).

Definition markPaid (id : string) (body : doc) (now : Z) (gen : N)
  : db -> response * db :=
  run "Failed to record payment" (
    let transactionId := body !! "transactionId" in
    match ObjectId_parse id with
    | None => ret (Resp 400 "Invalid booking ID")
    | Some oid =>
        let* booking := findOneM Bookings [("_id", VId oid)] in
        match booking with
        | None => ret (Resp 404 "Booking not found")
        | Some booking =>
            let* _ :=
              updateOneM Bookings [("_id", VId oid)]
                (USet (obj [("status", VStr "paid");
                            ("transactionId", bson transactionId);
                            ("paidAt", VDate now)])) in
            let* ticketId := lift (new_ObjectId gen (booking !! "ticketId")) in
            let* _ :=
              reserve ticketId (ToNumber (booking !! "bookingQuantity")) in
            ret (Resp 200 "Payment recorded successfully")
        end
    end).

(** *** POST /api/transactions *)
Definition saveTransaction (transactionData : doc) (now : Z) (gen : N)
  : db -> response * db :=
  run "Failed to save transaction" (
    let* _ :=
      insertOneM Transactions gen
        (<["createdAt" := VDate now]> transactionData) in
    ret (Resp 201 "Transaction saved successfully")).

End Server.

(** ** The requests that write the database *)

Inductive request : Type :=
| MarkVendorFraudulent (email : string)
| CreateTicket (ticketData : doc) (gen : N)
| UpdateTicket (id : string) (updateData : doc)
| VerifyTicket (id : string) (body : doc)
| Advertise (id : string) (body : doc)
| CreateBooking (bookingData : doc) (gen : N)
| AcceptBooking (id : string)
| RejectBooking (id : string)
| MarkPaid (id : string) (body : doc) (gen : N)
| SaveTransaction (transactionData : doc) (gen : N).

(** The routes: which handler serves a request received at time [now]. *)
Definition handle `{Runtime} (req : request) (now : Z)
  : db -> response * db :=
  match req with
  | MarkVendorFraudulent email => markVendorFraudulent email now
  | CreateTicket ticketData gen => createTicket ticketData now gen
  | UpdateTicket id updateData => updateTicket id updateData now
  | VerifyTicket id body => verifyTicket id body now
  | Advertise id body => advertise id body now
  | CreateBooking bookingData gen => createBooking bookingData now gen
  | AcceptBooking id => acceptBooking id now
  | RejectBooking id => rejectBooking id now
  | MarkPaid id body gen => markPaid id body now gen
  | SaveTransaction transactionData gen =>
      saveTransaction transactionData now gen
  end.

(** Which requests can change the quantity, the verification status and the
    advertised flag of a stored ticket. *)
Definition writes_quantity (req : request) : bool :=
  match req with
  | MarkPaid _ _ _ | UpdateTicket _ _ => true
  | _ => false
  end.

Definition writes_status (req : request) : bool :=
  match req with
  | VerifyTicket _ _ | MarkVendorFraudulent _ => true
  | _ => false
  end.

Definition writes_flag (req : request) : bool :=
  match req with
  | Advertise _ _ => true
  | _ => false
  end.

(** The requests that reject tickets. *)
Definition rejects (req : request) : Prop :=
  match req with
  | MarkVendorFraudulent _ => True
  | VerifyTicket _ body =>
      body !! "verificationStatus" = Some (VStr "rejected")
  | _ => False
  end.

(** ** The other routes on users and tickets *)

(** What a read route answers: [res.json({ data })] or a refusal. *)
Inductive answer (A : Type) : Type :=
| Data (a : A)
| Refusal (r : response).

Arguments Data {A} a.
Arguments Refusal {A} r.

Section Routes.

Context {rt : Runtime}.

(** *** POST /api/users *)
Definition saveUser (user : doc) (now : Z) (gen : N) : db -> response * db :=
  run "Failed to save user" (
    let* existingUser :=
      findOneM Users [("email", bson (user !! "email"))] in
    match existingUser with
    | Some _ =>
        let* _ :=
          updateOneM Users [("email", bson (user !! "email"))]
            (USet (obj [("name", bson (user !! "name"));
                        ("photoURL", bson (user !! "photoURL"));
                        ("updatedAt", VDate now)])) in
        ret (Resp 200 "User updated successfully")
    | None =>
        let* _ :=
          insertOneM Users gen
            (obj [("name", bson (user !! "name"));
                  ("email", bson (user !! "email"));
                  ("photoURL", bson (user !! "photoURL"));
                  ("role", VStr "user");
                  ("isFraud", VBool false);
                  ("createdAt", VDate now)]) in
        ret (Resp 201 "User created successfully")
    end).

(** *** GET /api/users/:email *)
Definition getUser (email : string) (st : db) : answer doc :=
  match findOne [("email", VStr email)] (users st) with
  | None => Refusal (Resp 404 "User not found")
  | Some user => Data user
  end.

(** *** PATCH /api/users/:email/role *)
Definition role_message (role : option value) : string :=
  match role with
  | Some (VStr s) => "User role updated to " +:+ s
  | _ => EmptyString
  end.

Definition updateRole (email : string) (body : doc) (now : Z)
  : db -> response * db :=
  run "Failed to update user role" (
    let role := body !! "role" in
    if negb (includes ["user"; "vendor"; "admin"] role) then
      ret (Resp 400 "Invalid role. Must be user, vendor, or admin")
    else
      let* matchedCount :=
        updateOneM Users [("email", VStr email)]
          (USet (obj [("role", bson role); ("updatedAt", VDate now)])) in
      if (matchedCount =? 0)%nat then
        ret (Resp 404 "User not found")
      else
        ret (Resp 200 (role_message role))).

(** *** GET /api/tickets/advertised *)
Definition getAdvertised (st : db) : list doc :=
  limit 6
    (find [("verificationStatus", VStr "approved");
           ("isAdvertised", VBool true)]
       (tickets st)).

(** *** GET /api/tickets/:id *)
Definition getTicket (id : string) (st : db) : answer doc :=
  match ObjectId_parse id with
  | None => Refusal (Resp 400 "Invalid ticket ID")
  | Some oid =>
      match findOne [("_id", VId oid)] (tickets st) with
      | None => Refusal (Resp 404 "Ticket not found")
      | Some ticket => Data ticket
      end
  end.

(** *** DELETE /api/tickets/:id *)
Definition deleteTicket (id : string) : db -> response * db :=
  run "Failed to delete ticket" (
    match ObjectId_parse id with
    | None => ret (Resp 400 "Invalid ticket ID")
    | Some oid =>
        let* deletedCount := deleteOneM Tickets [("_id", VId oid)] in
        if (deletedCount =? 0)%nat then
          ret (Resp 404 "Ticket not found")
        else
          ret (Resp 200 "Ticket deleted successfully")
    end).

End Routes.

(** Every request that writes the database: those above and the three on
    users and on the deletion of a ticket. *)
Inductive write : Type :=
| Core (req : request)
| SaveUser (user : doc) (gen : N)
| UpdateRole (email : string) (body : doc)
| DeleteTicket (id : string).

Definition serve `{Runtime} (w : write) (now : Z) : db -> response * db :=
  match w with
  | Core req => handle req now
  | SaveUser user gen => saveUser user now gen
  | UpdateRole email body => updateRole email body now
  | DeleteTicket id => deleteTicket id
  end.

(** The id in the path of a request, for the routes that have one, and the
    message of its 400. *)
Definition path_id (w : write) : option (string * string) :=
  match w with
  | Core (UpdateTicket id _) | Core (VerifyTicket id _)
  | Core (Advertise id _) | DeleteTicket id => Some (id, "Invalid ticket ID")
  | Core (AcceptBooking id) | Core (RejectBooking id)
  | Core (MarkPaid id _ _) => Some (id, "Invalid booking ID")
  | _ => None
  end.

(** Which collections a request can write. *)
Definition writes_coll (w : write) (c : coll) : bool :=
  match w, c with
  | Core (MarkVendorFraudulent _), (Users | Tickets) => true
  | Core (CreateTicket _ _), Tickets => true
  | Core (UpdateTicket _ _), Tickets => true
  | Core (VerifyTicket _ _), Tickets => true
  | Core (Advertise _ _), Tickets => true
  | Core (CreateBooking _ _), Bookings => true
  | Core (AcceptBooking _), Bookings => true
  | Core (RejectBooking _), Bookings => true
  | Core (MarkPaid _ _ _), (Bookings | Tickets) => true
  | Core (SaveTransaction _ _), Transactions => true
  | SaveUser _ _, Users => true
  | UpdateRole _ _, Users => true
  | DeleteTicket _, Tickets => true
  | _, _ => false
  end.

(** ** A runtime for the examples

    ObjectIds written as 24 hexadecimal digits, which every version of bson
    accepts; other strings are rejected here. No example converts a string
    to a number. *)

Module Hex.

Definition digit (c : ascii) : option N :=
  let n := N_of_ascii c in
  if (48 <=? n)%N && (n <=? 57)%N then Some (n - 48)%N
  else if (97 <=? n)%N && (n <=? 102)%N then Some (n - 87)%N
  else if (65 <=? n)%N && (n <=? 70)%N then Some (n - 55)%N
  else None.

Fixpoint value_of (s : string) (acc : N) : option N :=
  match s with
  | EmptyString => Some acc
  | String c s' =>
      match digit c with
      | Some d => value_of s' (16 * acc + d)%N
      | None => None
      end
  end.

Definition parse (s : string) : option N :=
  if (String.length s =? 24)%nat then value_of s 0%N else None.

Definition digit_of (d : N) : ascii :=
  if (d <? 10)%N then ascii_of_N (48 + d) else ascii_of_N (87 + d).

Fixpoint print (digits : nat) (n : N) (acc : string) : string :=
  match digits with
  | O => acc
  | S k => print k (n / 16)%N (String (digit_of (n mod 16)%N) acc)
  end.

Definition runtime : Runtime := {|
  ObjectId_parse := parse;
  ObjectId_hex := fun o => print 24 o EmptyString;
  StringToNumber := fun _ => NaN
|}.

End Hex.

(** ** Observations and the sequences the properties speak of *)

Definition by_id (oid : N) : filter := [("_id", VId oid)].

(** The query of [advertise]: the ticket, if it is approved. *)
Definition approved_by_id (oid : N) : filter :=
  [("_id", VId oid); ("verificationStatus", VStr "approved")].

(** The queries and [$set] documents of the fraud cascade and of the
    verification, named. *)
Definition vendor_query (email : string) : filter :=
  [("email", VStr email); ("role", VStr "vendor")].

Definition owned_by (email : string) : filter :=
  [("vendorEmail", VStr email)].

Definition fraud_fields (now : Z) : doc :=
  obj [("isFraud", VBool true); ("updatedAt", VDate now)].

Definition rejected_fields : doc :=
  obj [("verificationStatus", VStr "rejected")].

Definition verified_fields (v : option value) (now : Z) : doc :=
  obj [("verificationStatus", bson v); ("verifiedAt", VDate now)].

Definition advert_fields (isAdvertised : option value) (now : Z) : doc :=
  obj [("isAdvertised", bson isAdvertised);
       ("advertisedAt", if truthy isAdvertised then VDate now else VNull)].

(** The [$set] documents of the booking handlers, named. *)
Definition accepted_fields (now : Z) : doc :=
  obj [("status", VStr "accepted"); ("acceptedAt", VDate now)].

Definition declined_fields (now : Z) : doc :=
  obj [("status", VStr "rejected"); ("rejectedAt", VDate now)].

Definition paid_fields (transactionId : option value) (now : Z) : doc :=
  obj [("status", VStr "paid"); ("transactionId", bson transactionId);
       ("paidAt", VDate now)].

(** Field [k] of the document of collection [c] whose [_id] is [oid]. *)
Definition field (c : list doc) (oid : N) (k : string) : option value :=
  findOne (by_id oid) c ≫= (.!! k).

(** The slots held: tickets that are advertised and approved. *)
Definition slots_held (st : db) : nat :=
  countDocuments advertised_query (tickets st).

(** A sequence of reservations against one ticket. *)
Fixpoint reserves (ticketId : N) (qs : list Z) (st : db) : db :=
  match qs with
  | [] => st
  | q :: qs' => reserves ticketId qs' (snd (reserve ticketId (Int q) st))
  end.

Definition total (qs : list Z) : Z := foldr Z.add 0 qs.

(** A sequence of [grantSlot] requests, each with its ticket id and time. *)
Fixpoint grants `{Runtime} (reqs : list (string * Z)) (st : db) : db :=
  match reqs with
  | [] => st
  | (id, now) :: reqs' => grants reqs' (snd (grantSlot id now st))
  end.

(** Two states of the tickets agree on field [k], ticket by ticket. *)
Definition same_field (k : string) (c c' : list doc) : Prop :=
  Forall2 (fun t t' : doc => t' !! k = t !! k) c c'.

(** The tickets of [st], as they are in the later state [st']: insertion
    puts new tickets after them. *)
Definition stored (st st' : db) : list doc :=
  take (length (tickets st)) (tickets st').

(** Whether an update writes field [k]. *)
Definition touches (u : update) (k : string) : Prop :=
  match u with
  | USet fields => is_Some (fields !! k)
  | UInc k' _ => k' = k
  end.

(** The writes a request may make to stored tickets: the query and the
    update of its [updateOne] or [updateMany] on the tickets. *)
Definition ticket_write (req : request) (now : Z) (q : filter) (u : update)
  : Prop :=
  match req with
  | MarkVendorFraudulent email =>
      q = owned_by email ∧ u = USet rejected_fields
  | UpdateTicket _ updateData =>
      (∃ oid, q = by_id oid)
      ∧ u = USet (<["updatedAt" := VDate now]> (strip updateData))
  | VerifyTicket _ body =>
      (∃ oid, q = by_id oid)
      ∧ includes ["approved"; "rejected"] (body !! "verificationStatus") = true
      ∧ u = USet (verified_fields (body !! "verificationStatus") now)
  | Advertise _ body =>
      (∃ oid, q = approved_by_id oid)
      ∧ u = USet (advert_fields (body !! "isAdvertised") now)
  | MarkPaid _ _ _ =>
      (∃ oid, q = by_id oid) ∧ ∃ n, u = UInc "quantity" n
  | _ => False
  end.

(** The tickets after a request, from the tickets before it. *)
Inductive tickets_effect (req : request) (now : Z) (c : list doc)
  : list doc → Prop :=
| effect_none : tickets_effect req now c c
| effect_insert ticketData gen :
    req = CreateTicket ticketData gen →
    tickets_effect req now c (c ++ [with_id gen (newTicket ticketData now)])
| effect_one q u :
    ticket_write req now q u →
    tickets_effect req now c (snd (updateOne q u c))
| effect_many q u :
    ticket_write req now q u →
    tickets_effect req now c (snd (updateMany q u c)).

(** The invariant of one ticket: advertised only if approved. *)
Definition flag_implies_approved (t : doc) : Prop :=
  t !! "isAdvertised" = Some (VBool true) →
  t !! "verificationStatus" = Some (VStr "approved").

(** ** The properties as the specification words them

    Each is a predicate on one request; the theorems below say which hold
    of the handlers and which do not. *)

Section Stated.

Context {rt : Runtime}.

(** markPaid commits the three effects together or none of them. *)
Definition committed_all (st st' : db) (bookingId ticketId : N) (q : Z)
  : Prop :=
  field (bookings st') bookingId "status" = Some (VStr "paid")
  ∧ (∃ r, field (tickets st) ticketId "quantity" = Some (VNum (Int r))
          ∧ field (tickets st') ticketId "quantity"
            = Some (VNum (Int (r - q))))
  ∧ length (transactions st') = S (length (transactions st)).

Definition committed_none (st st' : db) : Prop :=
  bookings st' = bookings st
  ∧ tickets st' = tickets st
  ∧ transactions st' = transactions st.

Definition markPaid_all_or_nothing
    (id : string) (body : doc) (now : Z) (gen : N) (st : db)
    (bookingId ticketId : N) (q : Z) : Prop :=
  let st' := snd (markPaid id body now gen st) in
  committed_all st st' bookingId ticketId q ∨ committed_none st st'.

(** A reservation succeeds only against sufficient stock, and the remaining
    quantity stays non-negative. *)
Definition reserve_bounded (ticketId : N) (q : Z) (st : db) : Prop :=
  ∀ r r',
    field (tickets st) ticketId "quantity" = Some (VNum (Int r)) →
    field (tickets (snd (reserve ticketId (Int q) st))) ticketId "quantity"
      = Some (VNum (Int r')) →
    (fst (reserve ticketId (Int q) st) = Ret 1%nat → q ≤ r) ∧ 0 ≤ r'.

(** markPaid is refused on a booking that is not [accepted], which it leaves
    as it is. *)
Definition markPaid_only_accepted
    (id : string) (body : doc) (now : Z) (gen : N) (st : db) : Prop :=
  ∀ oid b,
    ObjectId_parse id = Some oid →
    findOne (by_id oid) (bookings st) = Some b →
    b !! "status" ≠ Some (VStr "accepted") →
    code (fst (markPaid id body now gen st)) ≠ 200%nat
    ∧ bookings (snd (markPaid id body now gen st)) = bookings st.

(** decide is refused on a booking that is not [pending], which it leaves as
    it is. *)
Definition decide_only_pending
    (decide : string → Z → db → response * db)
    (id : string) (now : Z) (st : db) : Prop :=
  ∀ oid b,
    ObjectId_parse id = Some oid →
    findOne (by_id oid) (bookings st) = Some b →
    b !! "status" ≠ Some (VStr "pending") →
    code (fst (decide id now st)) ≠ 200%nat
    ∧ bookings (snd (decide id now st)) = bookings st.

(** A ticket is advertised only if it is approved. *)
Definition advertised_only_if_approved (st : db) : Prop :=
  Forall flag_implies_approved (tickets st).

(** Every ticket of the vendor is rejected and not advertised. *)
Definition vendor_tickets_cleared (email : string) (st : db) : Prop :=
  Forall (fun t : doc =>
            t !! "vendorEmail" = Some (VStr email) →
            t !! "verificationStatus" = Some (VStr "rejected")
            ∧ t !! "isAdvertised" = Some (VBool false))
         (tickets st).

(** revokeSlot succeeds on every existing ticket and clears its flag. *)
Definition revokeSlot_unconditional (id : string) (now : Z) (st : db)
  : Prop :=
  ∀ oid t,
    ObjectId_parse id = Some oid →
    findOne (by_id oid) (tickets st) = Some t →
    code (fst (revokeSlot id now st)) = 200%nat
    ∧ field (tickets (snd (revokeSlot id now st))) oid "isAdvertised"
      = Some (VBool false).

(** The vendor's update leaves the four guarded fields of every ticket as
    they were. *)
Definition updateTicket_frames_guarded
    (id : string) (body : doc) (now : Z) (st : db) : Prop :=
  let c' := tickets (snd (updateTicket id body now st)) in
  same_field "quantity" (tickets st) c'
  ∧ same_field "verificationStatus" (tickets st) c'
  ∧ same_field "isAdvertised" (tickets st) c'
  ∧ same_field "vendorEmail" (tickets st) c'.

End Stated.

(** ** Example data *)

Module Ex.

Definition vendor : doc :=
  obj [("_id", VId 200); ("email", VStr "vendor@nexticket.io");
       ("role", VStr "vendor"); ("isFraud", VBool false)].

(** An approved, advertised ticket with one seat left. *)
Definition ticket : doc :=
  obj [("_id", VId 1); ("vendorEmail", VStr "vendor@nexticket.io");
       ("price", VNum (Int 500)); ("quantity", VNum (Int 1));
       ("verificationStatus", VStr "approved"); ("isAdvertised", VBool true)].

(** A rejected ticket that still carries the flag. *)
Definition rejected_ticket : doc :=
  obj [("_id", VId 1); ("vendorEmail", VStr "vendor@nexticket.io");
       ("price", VNum (Int 500)); ("quantity", VNum (Int 1));
       ("verificationStatus", VStr "rejected"); ("isAdvertised", VBool true)].

(** A booking of three seats of [ticket]. *)
Definition booking (status : string) : doc :=
  obj [("_id", VId 10); ("ticketId", VStr "000000000000000000000001");
       ("userEmail", VStr "user@nexticket.io");
       ("vendorEmail", VStr "vendor@nexticket.io");
       ("bookingQuantity", VNum (Int 3)); ("totalPrice", VNum (Int 1500));
       ("status", VStr status)].

Definition ticketId : string := "000000000000000000000001".
Definition bookingId : string := "00000000000000000000000a".

Definition shop (status : string) : db :=
  Db [vendor] [ticket] [booking status] [].

Definition stale_shop : db := Db [vendor] [rejected_ticket] [] [].

Definition payment : doc := obj [("transactionId", VStr "pi_3Q")].

(** An accepted booking whose [ticketId] is not an ObjectId. *)
Definition orphan_booking : doc :=
  obj [("_id", VId 10); ("ticketId", VStr "none");
       ("bookingQuantity", VNum (Int 3)); ("status", VStr "accepted")].

Definition orphan_shop : db := Db [vendor] [ticket] [orphan_booking] [].

(** Six approved, advertised tickets and a seventh, approved only. *)
Definition promoted (i : N) (advertised : bool) : doc :=
  obj [("_id", VId i); ("vendorEmail", VStr "vendor@nexticket.io");
       ("verificationStatus", VStr "approved");
       ("isAdvertised", VBool advertised)].

Definition full_house : db :=
  Db [vendor]
     [promoted 1 true; promoted 2 true; promoted 3 true; promoted 4 true;
      promoted 5 true; promoted 6 true; promoted 7 false]
     [] [].

Definition five_slots : db :=
  Db [vendor]
     [promoted 1 true; promoted 2 true; promoted 3 true; promoted 4 true;
      promoted 5 true; promoted 6 false; promoted 7 false]
     [] [].

End Ex.

(** ** Observations for the other routes *)

Definition by_email (email : string) : filter := [("email", VStr email)].

(** The query of GET /api/tickets/advertised. *)
Definition advertised_listing : filter :=
  [("verificationStatus", VStr "approved"); ("isAdvertised", VBool true)].

(** The [$set] documents and the new user of the routes on users, named. *)
Definition profile_fields (user : doc) (now : Z) : doc :=
  obj [("name", bson (user !! "name"));
       ("photoURL", bson (user !! "photoURL"));
       ("updatedAt", VDate now)].

Definition newUser (user : doc) (now : Z) : doc :=
  obj [("name", bson (user !! "name"));
       ("email", bson (user !! "email"));
       ("photoURL", bson (user !! "photoURL"));
       ("role", VStr "user");
       ("isFraud", VBool false);
       ("createdAt", VDate now)].

Definition role_fields (role : option value) (now : Z) : doc :=
  obj [("role", bson role); ("updatedAt", VDate now)].

(** The role of a user is one of the three the server knows. *)
Definition valid_role (u : doc) : Prop :=
  ∃ r, r ∈ ["user"; "vendor"; "admin"] ∧ u !! "role" = Some (VStr r).

Definition valid_roles (st : db) : Prop := Forall valid_role (users st).

(** The fields of a booking that record its progress; the others are its
    terms. *)
Definition progress_fields : list string :=
  ["status"; "acceptedAt"; "rejectedAt"; "transactionId"; "paidAt"].

Definition is_verify (w : write) : bool :=
  match w with
  | Core (VerifyTicket _ _) => true
  | _ => false
  end.

(** Example data for the other routes. *)
Module More.

Definition admin : doc :=
  obj [("_id", VId 201); ("email", VStr "admin@nexticket.io");
       ("role", VStr "admin"); ("isFraud", VBool false)].

Definition office : db := Db [Ex.vendor; admin] [Ex.ticket] [Ex.booking "accepted"] [].

(** A request to register that asks for the admin role. *)
Definition signup : doc :=
  obj [("name", VStr "Rahim"); ("email", VStr "rahim@nexticket.io");
       ("photoURL", VStr "https://i.ibb.co/r.png"); ("role", VStr "admin");
       ("isFraud", VBool true)].

(** Six slots held, and a rejected ticket that still carries the flag. *)
Definition stale (i : N) : doc :=
  obj [("_id", VId i); ("vendorEmail", VStr "vendor@nexticket.io");
       ("verificationStatus", VStr "rejected"); ("isAdvertised", VBool true)].

Definition crowded : db :=
  Db [Ex.vendor]
     [Ex.promoted 1 true; Ex.promoted 2 true; Ex.promoted 3 true;
      Ex.promoted 4 true; Ex.promoted 5 true; Ex.promoted 6 true; stale 8]
     [] [].

Definition offer : doc :=
  obj [("title", VStr "Dhaka to Sylhet"); ("quantity", VNum (Int 40));
       ("price", VNum (Int 700)); ("verificationStatus", VStr "approved");
       ("isAdvertised", VBool true)].

Definition order : doc :=
  obj [("ticketId", VStr "000000000000000000000001");
       ("bookingQuantity", VNum (Int 2)); ("totalPrice", VNum (Int 1000));
       ("status", VStr "paid")].

Definition receipt : doc :=
  obj [("bookingId", VStr "00000000000000000000000a");
       ("amount", VNum (Int 1500)); ("transactionId", VStr "pi_3Q")].

End More.

(** ** Facts about the collection operations *)

Section MongoFacts.

Implicit Types (q f : filter) (u : update) (c : list doc) (d : doc).

Lemma field_matches_eq d k v :
  v ≠ VNull → field_matches d (k, v) = bool_decide (d !! k = Some v).
Proof.
  intros Hv. unfold field_matches; simpl.
  destruct (d !! k) as [w|] eqn:E.
  - apply bool_decide_ext. split; congruence.
  - rewrite !bool_decide_eq_false_2; [done | congruence | congruence].
Qed.

(** A [$set] of other fields does not change whether a query matches. *)
Lemma matches_set_other q (s d : doc) :
  Forall (fun kv => s !! kv.1 = None) q →
  matches q (s ∪ d) = matches q d.
Proof.
  unfold matches. induction 1 as [|kv q Hkv _ IH]; simpl; [done|].
  rewrite IH. f_equal.
  unfold field_matches. by rewrite lookup_union_r.
Qed.

Lemma matches_insert_other q k v d :
  Forall (fun kv => kv.1 ≠ k) q →
  matches q (<[k := v]> d) = matches q d.
Proof.
  unfold matches. induction 1 as [|kv q Hkv _ IH]; simpl; [done|].
  rewrite IH. f_equal.
  unfold field_matches. by rewrite lookup_insert_ne.
Qed.

Lemma updateOne_not_found q u c :
  findOne q c = None → updateOne q u c = (Some 0%nat, c).
Proof.
  unfold findOne. induction c as [|d c IH]; simpl; [done|].
  destruct (matches q d); [done|].
  intros H. by rewrite (IH H).
Qed.

Lemma updateOne_found q u c d d' :
  findOne q c = Some d →
  apply_update u d = Some d' →
  fst (updateOne q u c) = Some 1%nat
  ∧ (matches q d' = true → findOne q (snd (updateOne q u c)) = Some d').
Proof.
  unfold findOne. induction c as [|e c IH]; simpl; [done|].
  destruct (matches q e) eqn:E.
  - intros [= ->] ->. simpl. split; [done|]. by intros ->.
  - intros Hf Hu. destruct (IH Hf Hu) as [H1 H2].
    destruct (updateOne q u c) as [n c'']; simpl in *.
    split; [done|]. by rewrite E.
Qed.

Lemma Forall2_diag (R : doc → doc → Prop) c :
  (∀ d, R d d) → Forall2 R c c.
Proof. intros H. induction c; constructor; auto. Qed.

(** [updateOne] changes at most one document, and only a matching one. *)
Lemma updateOne_Forall2 (R : doc → doc → Prop) q u c :
  (∀ d, R d d) →
  (∀ d d', matches q d = true → apply_update u d = Some d' → R d d') →
  Forall2 R c (snd (updateOne q u c)).
Proof.
  intros Hrefl Hupd. induction c as [|d c IH]; simpl; [constructor|].
  destruct (matches q d) eqn:E.
  - destruct (apply_update u d) as [d'|] eqn:Eu; simpl.
    + constructor; [by apply Hupd | by apply Forall2_diag].
    + constructor; [done | by apply Forall2_diag].
  - destruct (updateOne q u c) as [n c'']; simpl in *. by constructor.
Qed.

Lemma updateMany_Forall2 (R : doc → doc → Prop) q u c :
  (∀ d, R d d) →
  (∀ d d', matches q d = true → apply_update u d = Some d' → R d d') →
  Forall2 R c (snd (updateMany q u c)).
Proof.
  intros Hrefl Hupd. induction c as [|d c IH]; simpl; [constructor|].
  destruct (matches q d) eqn:E.
  - destruct (apply_update u d) as [d'|] eqn:Eu; simpl.
    + destruct (updateMany q u c) as [n c'']; simpl in *.
      constructor; [by apply Hupd | done].
    + constructor; [done | by apply Forall2_diag].
  - destruct (updateMany q u c) as [n c'']; simpl in *. by constructor.
Qed.

(** A [$set] is never a write error. *)
Lemma updateMany_set_ok q s c : is_Some (fst (updateMany q (USet s) c)).
Proof.
  induction c as [|d c IH]; simpl; [by eexists|].
  destruct (updateMany q (USet s) c) as [n c'']; simpl in *.
  destruct IH as [m ->]. destruct (matches q d); simpl; by eexists.
Qed.

(** One update raises a count by at most one. *)
Lemma updateOne_count f q u c :
  (countDocuments f (snd (updateOne q u c)) ≤ S (countDocuments f c))%nat.
Proof.
  unfold countDocuments. induction c as [|d c IH]; simpl; [lia|].
  destruct (matches q d) eqn:E.
  - destruct (apply_update u d) as [d'|]; simpl.
    + destruct (matches f d'), (matches f d); simpl; lia.
    + destruct (matches f d); simpl; lia.
  - destruct (updateOne q u c) as [n c'']; simpl in *.
    destruct (matches f d); simpl; lia.
Qed.

(** An update that turns no document into a match does not raise a count. *)
Lemma updateOne_count_le f q u c :
  (∀ d d', apply_update u d = Some d' → matches f d' = true →
           matches f d = true) →
  (countDocuments f (snd (updateOne q u c)) ≤ countDocuments f c)%nat.
Proof.
  intros Hu. unfold countDocuments.
  induction c as [|d c IH]; simpl; [lia|].
  destruct (matches q d) eqn:E.
  - destruct (apply_update u d) as [d'|] eqn:Eu; simpl; [|lia].
    destruct (matches f d') eqn:Ef'; simpl.
    + rewrite (Hu _ _ Eu Ef'). simpl. lia.
    + destruct (matches f d); simpl; lia.
  - destruct (updateOne q u c) as [n c'']; simpl in *.
    destruct (matches f d); simpl; lia.
Qed.

Lemma updateMany_count_le f q u c :
  (∀ d d', apply_update u d = Some d' → matches f d' = true →
           matches f d = true) →
  (countDocuments f (snd (updateMany q u c)) ≤ countDocuments f c)%nat.
Proof.
  intros Hu. unfold countDocuments.
  induction c as [|d c IH]; simpl; [lia|].
  destruct (matches q d) eqn:E.
  - destruct (apply_update u d) as [d'|] eqn:Eu; simpl; [|lia].
    destruct (updateMany q u c) as [n c'']; simpl in *.
    destruct (matches f d') eqn:Ef'; simpl.
    + rewrite (Hu _ _ Eu Ef'). simpl. lia.
    + destruct (matches f d); simpl; lia.
  - destruct (updateMany q u c) as [n c'']; simpl in *.
    destruct (matches f d); simpl; lia.
Qed.

(** What [updateMany] with a [$set] leaves behind. *)
Lemma updateMany_set_Forall (P : doc → Prop) q (s : doc) c :
  (∀ d, matches q d = true → P (s ∪ d)) →
  (∀ d, matches q d = false → P d) →
  Forall P (snd (updateMany q (USet s) c)).
Proof.
  intros Hyes Hno. induction c as [|d c IH]; simpl; [constructor|].
  destruct (updateMany q (USet s) c) as [n c'']; simpl in *.
  destruct (matches q d) eqn:E; simpl; constructor; auto.
Qed.

(** Setting the same fields again changes nothing more. *)
Lemma union_absorb (s s' d : doc) :
  (∀ k, is_Some (s !! k) → is_Some (s' !! k)) →
  s' ∪ (s ∪ d) = s' ∪ d.
Proof.
  intros Hdom. apply map_eq. intros k. rewrite !lookup_union.
  destruct (s' !! k) as [v'|] eqn:E'; [by destruct (s !! k), (d !! k)|].
  destruct (s !! k) as [v|] eqn:E; [|by destruct (d !! k)].
  destruct (Hdom k) as [w Hw]; [by eexists|]. congruence.
Qed.

Lemma updateMany_set_idem q (s : doc) c :
  Forall (fun kv => s !! kv.1 = None) q →
  snd (updateMany q (USet s) (snd (updateMany q (USet s) c)))
  = snd (updateMany q (USet s) c).
Proof.
  intros Hq. induction c as [|d c IH]; simpl; [done|].
  destruct (matches q d) eqn:E; simpl.
  - destruct (updateMany q (USet s) c) as [n c'']; simpl in *.
    rewrite matches_set_other, E by done. simpl.
    destruct (updateMany q (USet s) c'') as [n' c3]; simpl in *.
    rewrite IH. f_equal. by apply union_absorb.
  - destruct (updateMany q (USet s) c) as [n c'']; simpl in *.
    rewrite E.
    destruct (updateMany q (USet s) c'') as [n' c3]; simpl in *.
    by rewrite IH.
Qed.

Lemma updateOne_set_twice q (s s' : doc) c :
  Forall (fun kv => s !! kv.1 = None) q →
  (∀ k, is_Some (s !! k) → is_Some (s' !! k)) →
  snd (updateOne q (USet s') (snd (updateOne q (USet s) c)))
  = snd (updateOne q (USet s') c).
Proof.
  intros Hq Hdom. induction c as [|d c IH]; simpl; [done|].
  destruct (matches q d) eqn:E; simpl.
  - rewrite matches_set_other, E by done. simpl.
    f_equal. by apply union_absorb.
  - destruct (updateOne q (USet s) c) as [n c'']; simpl in *.
    rewrite E.
    destruct (updateOne q (USet s') c'') as [n' c3]; simpl in *.
    destruct (updateOne q (USet s') c) as [n'' c4]; simpl in *.
    by rewrite IH.
Qed.

End MongoFacts.

(** ** Facts about handler steps *)

Section HandlerFacts.

Implicit Types (st : db) (c : coll).

Lemma put_get c st : put c (get c st) st = st.
Proof. by destruct c, st. Qed.

(** The shape shared by most handlers: one [updateOne] with a [$set], then
    404 when [matchedCount] is 0. *)
Lemma run_updateOne_set msg c q (s : doc) (r0 r1 : response) st :
  run msg
    (let* matchedCount := updateOneM c q (USet s) in
     if (matchedCount =? 0)%nat then ret r0 else ret r1) st
  = match findOne q (get c st) with
    | None => (r0, st)
    | Some _ => (r1, put c (snd (updateOne q (USet s) (get c st))) st)
    end.
Proof.
  unfold run, bind, updateOneM.
  destruct (findOne q (get c st)) as [d|] eqn:E.
  - destruct (updateOne_found q (USet s) _ d (s ∪ d) E eq_refl) as [H _].
    destruct (updateOne q (USet s) (get c st)) as [n l].
    simpl in H. by subst n.
  - rewrite (updateOne_not_found _ _ _ E). simpl. by rewrite put_get.
Qed.

(** After a [$set] that does not touch the fields of the query, the query
    finds the updated document. *)
Lemma findOne_after_set q (s : doc) (l : list doc) d :
  Forall (fun kv => s !! kv.1 = None) q →
  findOne q l = Some d →
  findOne q (snd (updateOne q (USet s) l)) = Some (s ∪ d).
Proof.
  intros Hq Hf.
  destruct (updateOne_found q (USet s) l d (s ∪ d) Hf eq_refl) as [_ H].
  apply H. rewrite matches_set_other by done.
  unfold findOne in Hf. by apply find_some in Hf as [_ ?].
Qed.

End HandlerFacts.

(** ** The advertisement allocator *)

Section Allocator.

Context {rt : Runtime}.

Lemma grant_body :
  obj [("isAdvertised", VBool true)] !! "isAdvertised" = Some (VBool true).
Proof. by vm_compute. Qed.

Lemma revoke_body :
  obj [("isAdvertised", VBool false)] !! "isAdvertised" = Some (VBool false).
Proof. by vm_compute. Qed.

(** What [advertise] does, case by case. *)
Lemma advertise_cases id body now st :
  advertise id body now st
  = match ObjectId_parse id with
    | None => (Resp 400 "Invalid ticket ID", st)
    | Some oid =>
        if truthy (body !! "isAdvertised") && (6 <=? slots_held st)%nat then
          (Resp 400
             "Cannot advertise more than 6 tickets. Please unadvertise one first.",
           st)
        else
          match findOne (approved_by_id oid) (tickets st) with
          | None => (Resp 404 "Ticket not found or not approved", st)
          | Some _ =>
              (Resp 200
                 ("Ticket "
                  +:+ (if truthy (body !! "isAdvertised")
                       then "advertised" else "unadvertised")
                  +:+ " successfully"),
               put Tickets
                 (snd (updateOne (approved_by_id oid)
                         (USet (advert_fields (body !! "isAdvertised") now))
                         (tickets st)))
                 st)
          end
    end.
Proof.
  unfold advertise.
  destruct (ObjectId_parse id) as [oid|]; [|done].
  pose proof (run_updateOne_set "Failed to update advertisement status"
                Tickets (approved_by_id oid)
                (advert_fields (body !! "isAdvertised") now)
                (Resp 404 "Ticket not found or not approved")
                (Resp 200
                   ("Ticket "
                    +:+ (if truthy (body !! "isAdvertised")
                         then "advertised" else "unadvertised")
                    +:+ " successfully")) st) as Hrest.
  cbn [get] in Hrest. rewrite <- Hrest. clear Hrest.
  unfold advert_fields.
  destruct (truthy (body !! "isAdvertised")); cbn [andb].
  - unfold run at 1, bind at 1, bind at 1, countDocumentsM, ret at 1.
    cbn [get]. fold (slots_held st).
    by destruct (6 <=? slots_held st)%nat.
  - reflexivity.
Qed.

Lemma grantSlot_cases id now st :
  match ObjectId_parse id with
  | None => grantSlot id now st = (Resp 400 "Invalid ticket ID", st)
  | Some oid =>
      if (6 <=? slots_held st)%nat then
        grantSlot id now st
        = (Resp 400
             "Cannot advertise more than 6 tickets. Please unadvertise one first.",
           st)
      else
        tickets (snd (grantSlot id now st)) = tickets st
        ∨ tickets (snd (grantSlot id now st))
          = snd (updateOne (approved_by_id oid)
                   (USet (advert_fields (Some (VBool true)) now))
                   (tickets st))
  end.
Proof.
  unfold grantSlot. rewrite advertise_cases, grant_body. cbn [truthy andb].
  destruct (ObjectId_parse id) as [oid|]; [|done].
  destruct (6 <=? slots_held st)%nat; [done|].
  destruct (findOne _ _); [by right | by left].
Qed.

Lemma grantSlot_keeps_bound id now st :
  (slots_held st ≤ 6)%nat → (slots_held (snd (grantSlot id now st)) ≤ 6)%nat.
Proof.
  intros Hle. pose proof (grantSlot_cases id now st) as H.
  destruct (ObjectId_parse id) as [oid|]; [|by rewrite H].
  destruct (6 <=? slots_held st)%nat eqn:E; [by rewrite H|].
  apply Nat.leb_gt in E. unfold slots_held at 1.
  destruct H as [->| ->]; [fold (slots_held st); lia|].
  etrans; [apply updateOne_count|]. fold (slots_held st). lia.
Qed.

(** C4. Along every sequence of [grantSlot] requests that starts with at
    most six slots held, at most six tickets are advertised and approved
    after each request; and a grant asked for a ticket when six slots are
    held is answered with the 400 of the full pool and changes nothing. *)
Theorem grantSlot_pool_bound (st : db) :
  (slots_held st ≤ 6)%nat →
  (∀ reqs, (slots_held (grants reqs st) ≤ 6)%nat)
  ∧ (∀ id oid now,
       ObjectId_parse id = Some oid →
       slots_held st = 6%nat →
       grantSlot id now st
       = (Resp 400
            "Cannot advertise more than 6 tickets. Please unadvertise one first.",
          st)).
Proof.
  intros Hle. split.
  - intros reqs. revert st Hle.
    induction reqs as [|[id now] reqs IH]; intros st Hle; simpl; [done|].
    apply IH. by apply grantSlot_keeps_bound.
  - intros id oid now Hid Hfull.
    pose proof (grantSlot_cases id now st) as H.
    rewrite Hid, Hfull in H. exact H.
Qed.

(** What [revokeSlot] does, case by case. *)
Lemma revokeSlot_cases id now st :
  revokeSlot id now st
  = match ObjectId_parse id with
    | None => (Resp 400 "Invalid ticket ID", st)
    | Some oid =>
        match findOne (approved_by_id oid) (tickets st) with
        | None => (Resp 404 "Ticket not found or not approved", st)
        | Some _ =>
            (Resp 200 "Ticket unadvertised successfully",
             put Tickets
               (snd (updateOne (approved_by_id oid)
                       (USet (advert_fields (Some (VBool false)) now))
                       (tickets st)))
               st)
        end
    end.
Proof.
  unfold revokeSlot. by rewrite advertise_cases, revoke_body.
Qed.

(** C8, amended. [revokeSlot] succeeds exactly on a ticket that exists and
    is approved: its flag is then cleared, whatever it was. On a ticket
    that does not exist or is not approved the answer is the 404 [Ticket
    not found or not approved] and nothing changes. *)
Theorem revokeSlot_approved_only id oid now st :
  ObjectId_parse id = Some oid →
  match findOne (approved_by_id oid) (tickets st) with
  | Some t =>
      fst (revokeSlot id now st) = Resp 200 "Ticket unadvertised successfully"
      ∧ ∃ t',
          findOne (approved_by_id oid) (tickets (snd (revokeSlot id now st)))
          = Some t'
          ∧ t' !! "isAdvertised" = Some (VBool false)
          ∧ t' !! "advertisedAt" = Some VNull
          ∧ ∀ k, k ≠ "isAdvertised" → k ≠ "advertisedAt" → t' !! k = t !! k
  | None =>
      revokeSlot id now st = (Resp 404 "Ticket not found or not approved", st)
  end.
Proof.
  intros Hid. rewrite revokeSlot_cases, Hid.
  destruct (findOne (approved_by_id oid) (tickets st)) as [t|] eqn:E; [|done].
  split; [done|]. cbn [snd put tickets].
  eexists. split.
  - apply findOne_after_set; [|exact E].
    repeat constructor.
  - split; [|split].
    + by apply lookup_union_Some_l.
    + by apply lookup_union_Some_l.
    + intros k H1 H2. apply lookup_union_r.
      unfold advert_fields, obj; simpl. by rewrite !lookup_insert_ne.
Qed.

End Allocator.

(** ** Rejection: admin verification and the fraud cascade *)

Section Rejection.

Context {rt : Runtime}.

Lemma verifyTicket_cases id body now st :
  verifyTicket id body now st
  = match ObjectId_parse id with
    | None => (Resp 400 "Invalid ticket ID", st)
    | Some oid =>
        if negb (includes ["approved"; "rejected"]
                   (body !! "verificationStatus")) then
          (Resp 400
             ("Invalid verification status. Must be " +:+ quoted "approved"
              +:+ " or " +:+ quoted "rejected"), st)
        else
          match findOne (by_id oid) (tickets st) with
          | None => (Resp 404 "Ticket not found", st)
          | Some _ =>
              (Resp 200 (verified_message (body !! "verificationStatus")),
               put Tickets
                 (snd (updateOne (by_id oid)
                         (USet (verified_fields
                                  (body !! "verificationStatus") now))
                         (tickets st)))
                 st)
          end
    end.
Proof.
  unfold verifyTicket.
  destruct (ObjectId_parse id) as [oid|]; [|done].
  destruct (negb _); [done|].
  exact (run_updateOne_set _ Tickets (by_id oid) _ _ _ st).
Qed.

Lemma markVendorFraudulent_cases email now st :
  markVendorFraudulent email now st
  = match findOne (vendor_query email) (users st) with
    | None => (Resp 404 "Vendor not found", st)
    | Some _ =>
        (Resp 200 "Vendor marked as fraud and all tickets hidden",
         Db (snd (updateOne (vendor_query email) (USet (fraud_fields now))
                    (users st)))
            (snd (updateMany (owned_by email) (USet rejected_fields)
                    (tickets st)))
            (bookings st) (transactions st))
    end.
Proof.
  unfold markVendorFraudulent, run, bind, updateOneM, updateManyM.
  cbn [get].
  fold (vendor_query email) (fraud_fields now) (owned_by email) rejected_fields.
  destruct (findOne (vendor_query email) (users st)) as [d|] eqn:E.
  - destruct (updateOne_found _ (USet (fraud_fields now)) _ d _ E eq_refl)
      as [H _].
    destruct (updateOne _ _ (users st)) as [n l]. simpl in H. subst n.
    cbn [lift ret Nat.eqb put get tickets users bookings transactions].
    pose proof (updateMany_set_ok (owned_by email) rejected_fields (tickets st))
      as [m Hm].
    destruct (updateMany _ _ (tickets st)) as [n' l']. simpl in Hm. subst n'.
    reflexivity.
  - rewrite (updateOne_not_found _ _ _ E). simpl. by destruct st.
Qed.

(** A [$set] of [verificationStatus: 'rejected'] takes the ticket out of the
    advertised and approved ones. *)
Lemma rejected_not_counted (s d : doc) :
  s !! "verificationStatus" = Some (VStr "rejected") →
  matches advertised_query (s ∪ d) = false.
Proof.
  intros Hs. unfold advertised_query, matches. simpl.
  rewrite andb_true_r. apply andb_false_iff. right.
  unfold field_matches. simpl.
  by rewrite (lookup_union_Some_l _ _ _ _ Hs).
Qed.

Lemma verified_fields_status v now :
  verified_fields v now !! "verificationStatus" = Some (bson v).
Proof. unfold verified_fields, obj. simpl. by simplify_map_eq. Qed.

Lemma verified_fields_other v now k :
  k ≠ "verificationStatus" → k ≠ "verifiedAt" →
  verified_fields v now !! k = None.
Proof. intros. unfold verified_fields, obj. simpl. by simplify_map_eq. Qed.

Lemma rejected_fields_other k :
  k ≠ "verificationStatus" → rejected_fields !! k = None.
Proof. intros. unfold rejected_fields, obj. simpl. by simplify_map_eq. Qed.

Lemma verifyTicket_tickets id body now st :
  tickets (snd (verifyTicket id body now st)) = tickets st
  ∨ ∃ oid,
      tickets (snd (verifyTicket id body now st))
      = snd (updateOne (by_id oid)
               (USet (verified_fields (body !! "verificationStatus") now))
               (tickets st)).
Proof.
  rewrite verifyTicket_cases.
  destruct (ObjectId_parse id) as [oid|]; [|by left].
  destruct (negb _); [by left|].
  destruct (findOne _ _); [|by left].
  right. by exists oid.
Qed.

(** A transition to [rejected], by the admin's verification or by the fraud
    cascade, writes the verification status and leaves the advertised flag
    of every ticket as it was. The rejected ticket no longer counts among
    the advertised and approved ones. *)
Lemma rejection_keeps_flag id body now email st :
  same_field "isAdvertised" (tickets st)
    (tickets (snd (verifyTicket id body now st)))
  ∧ same_field "isAdvertised" (tickets st)
      (tickets (snd (markVendorFraudulent email now st)))
  ∧ (slots_held (snd (markVendorFraudulent email now st)) ≤ slots_held st)%nat
  ∧ (body !! "verificationStatus" = Some (VStr "rejected") →
     (slots_held (snd (verifyTicket id body now st)) ≤ slots_held st)%nat
     ∧ ∀ oid t,
         ObjectId_parse id = Some oid →
         findOne (by_id oid) (tickets st) = Some t →
         ∃ t',
           findOne (by_id oid) (tickets (snd (verifyTicket id body now st)))
           = Some t'
           ∧ t' !! "verificationStatus" = Some (VStr "rejected")
           ∧ t' !! "isAdvertised" = t !! "isAdvertised").
Proof.
  split; [|split; [|split]].
  - destruct (verifyTicket_tickets id body now st) as [->|[oid ->]].
    + by apply Forall2_diag.
    + apply updateOne_Forall2; [done|].
      intros d d' _ [= <-]. apply lookup_union_r.
      by apply verified_fields_other.
  - rewrite markVendorFraudulent_cases.
    destruct (findOne _ _); cbn [snd tickets].
    + apply updateMany_Forall2; [done|].
      intros d d' _ [= <-]. apply lookup_union_r.
      by apply rejected_fields_other.
    + by apply Forall2_diag.
  - rewrite markVendorFraudulent_cases. unfold slots_held.
    destruct (findOne _ _); cbn [snd tickets]; [|done].
    apply updateMany_count_le.
    intros d d' [= <-] H. by rewrite rejected_not_counted in H.
  - intros Hbody. split.
    + unfold slots_held.
      destruct (verifyTicket_tickets id body now st) as [->|[oid ->]]; [done|].
      apply updateOne_count_le.
      intros d d' [= <-] H. rewrite rejected_not_counted in H; [done|].
      by rewrite verified_fields_status, Hbody.
    + intros oid t Hid Hf.
      rewrite verifyTicket_cases, Hid, Hbody, Hf. cbn [includes].
      rewrite bool_decide_eq_true_2 by set_solver.
      cbn [negb snd put tickets].
      eexists. split.
      * apply findOne_after_set; [|exact Hf].
        repeat constructor.
      * split.
        -- by apply lookup_union_Some_l, verified_fields_status.
        -- apply lookup_union_r. by apply verified_fields_other.
Qed.

Lemma fraud_fields_dom now now' k :
  is_Some (fraud_fields now !! k) → is_Some (fraud_fields now' !! k).
Proof.
  unfold fraud_fields, obj. simpl.
  destruct (decide (k = "updatedAt")) as [->|]; [by simplify_map_eq|].
  destruct (decide (k = "isFraud")) as [->|]; by simplify_map_eq.
Qed.

Lemma rejected_fields_id (t : doc) :
  t !! "verificationStatus" = Some (VStr "rejected") →
  rejected_fields ∪ t = t.
Proof.
  intros Ht. apply map_eq. intros k. rewrite lookup_union.
  destruct (decide (k = "verificationStatus")) as [->|Hk].
  - rewrite Ht. by vm_compute.
  - rewrite rejected_fields_other by done. by destruct (t !! k).
Qed.

Lemma owned_by_matches email (t : doc) :
  matches (owned_by email) t = true ↔ t !! "vendorEmail" = Some (VStr email).
Proof.
  unfold owned_by, matches. simpl. rewrite andb_true_r.
  rewrite field_matches_eq by done. apply bool_decide_eq_true.
Qed.

(** C6, amended. After a fraud cascade that found the vendor, every ticket
    of the vendor is [rejected] and none of them counts as advertised and
    approved; the advertised flag itself is left as it was on every ticket,
    and a ticket that was already rejected is not changed at all. A second
    call answers and leaves the database as a single call at that time
    does. *)
Theorem markVendorFraudulent_idempotent email now now' st :
  (fst (markVendorFraudulent email now st)
   = Resp 200 "Vendor marked as fraud and all tickets hidden" →
   Forall (fun t : doc =>
             t !! "vendorEmail" = Some (VStr email) →
             t !! "verificationStatus" = Some (VStr "rejected")
             ∧ matches advertised_query t = false)
          (tickets (snd (markVendorFraudulent email now st))))
  ∧ Forall2 (fun t t' : doc =>
               t' !! "isAdvertised" = t !! "isAdvertised"
               ∧ (t !! "verificationStatus" = Some (VStr "rejected") → t' = t))
            (tickets st) (tickets (snd (markVendorFraudulent email now st)))
  ∧ markVendorFraudulent email now' (snd (markVendorFraudulent email now st))
    = markVendorFraudulent email now' st.
Proof.
  rewrite (markVendorFraudulent_cases email now st).
  destruct (findOne (vendor_query email) (users st)) as [u|] eqn:Hv.
  - cbn [fst snd tickets]. split; [|split].
    + intros _. apply updateMany_set_Forall.
      * intros d Hd _. split.
        -- by apply lookup_union_Some_l.
        -- by apply rejected_not_counted.
      * intros d Hd Hown. apply owned_by_matches in Hown. congruence.
    + apply updateMany_Forall2.
      * by intros d.
      * intros d d' _ [= <-]. split.
        -- apply lookup_union_r. by apply rejected_fields_other.
        -- apply rejected_fields_id.
    + rewrite !markVendorFraudulent_cases. cbn [users tickets bookings transactions].
      rewrite (findOne_after_set _ _ _ u), Hv; [|repeat constructor|done].
      f_equal. f_equal.
      * apply updateOne_set_twice; [repeat constructor|].
        apply fraud_fields_dom.
      * apply updateMany_set_idem. repeat constructor.
  - cbn [fst snd]. split; [done|]. split; [|done].
    apply Forall2_diag. by intros d.
Qed.

End Rejection.

(** ** Ticket creation and the vendor's update *)

Section Tickets.

Context {rt : Runtime}.

Lemma updateTicket_cases id body now st :
  updateTicket id body now st
  = match ObjectId_parse id with
    | None => (Resp 400 "Invalid ticket ID", st)
    | Some oid =>
        match findOne (by_id oid) (tickets st) with
        | None => (Resp 404 "Ticket not found", st)
        | Some _ =>
            (Resp 200 "Ticket updated successfully",
             put Tickets
               (snd (updateOne (by_id oid)
                       (USet (<["updatedAt" := VDate now]> (strip body)))
                       (tickets st)))
               st)
        end
    end.
Proof.
  unfold updateTicket.
  destruct (ObjectId_parse id) as [oid|]; [|done].
  exact (run_updateOne_set _ Tickets (by_id oid) _ _ _ st).
Qed.

(** The fields the handler deletes are not in the [$set] document. *)
Lemma strip_guarded body now k :
  k ∈ ["_id"; "verificationStatus"; "isAdvertised"; "vendorEmail"] →
  (<["updatedAt" := VDate now]> (strip body) : doc) !! k = None.
Proof.
  intros Hk. unfold strip.
  repeat (apply elem_of_cons in Hk as [->|Hk]); [..|by apply elem_of_nil in Hk];
    by simplify_map_eq.
Qed.

(** Every other field of the body is, [updatedAt] apart. *)
Lemma strip_other body now k :
  k ∉ ["_id"; "verificationStatus"; "isAdvertised"; "vendorEmail"] →
  k ≠ "updatedAt" →
  (<["updatedAt" := VDate now]> (strip body) : doc) !! k = body !! k.
Proof.
  intros Hk Hu. unfold strip.
  rewrite lookup_insert_ne by done.
  rewrite !lookup_delete_ne; [done|intros <-; apply Hk; repeat constructor..].
Qed.

(** The vendor's update leaves the verification status, the advertised
    flag, the vendor and the id of every ticket as they were, and touches
    no other collection. The quantity is not among the fields it strips: a
    [quantity] in the body is written to the ticket. *)
Lemma updateTicket_frame id body now st :
  (same_field "_id" (tickets st) (tickets (snd (updateTicket id body now st)))
   ∧ same_field "verificationStatus" (tickets st)
       (tickets (snd (updateTicket id body now st)))
   ∧ same_field "isAdvertised" (tickets st)
       (tickets (snd (updateTicket id body now st)))
   ∧ same_field "vendorEmail" (tickets st)
       (tickets (snd (updateTicket id body now st))))
  ∧ (users (snd (updateTicket id body now st)) = users st
     ∧ bookings (snd (updateTicket id body now st)) = bookings st
     ∧ transactions (snd (updateTicket id body now st)) = transactions st)
  ∧ (∀ oid t v,
       ObjectId_parse id = Some oid →
       findOne (by_id oid) (tickets st) = Some t →
       body !! "quantity" = Some v →
       fst (updateTicket id body now st) = Resp 200 "Ticket updated successfully"
       ∧ field (tickets (snd (updateTicket id body now st))) oid "quantity"
         = Some v).
Proof.
  assert (Hframe : ∀ k,
    k ∈ ["_id"; "verificationStatus"; "isAdvertised"; "vendorEmail"] →
    same_field k (tickets st) (tickets (snd (updateTicket id body now st)))).
  { intros k Hk. rewrite updateTicket_cases.
    destruct (ObjectId_parse id) as [oid|]; [|by apply Forall2_diag].
    destruct (findOne _ _); [|by apply Forall2_diag].
    cbn [snd put tickets]. apply updateOne_Forall2; [done|].
    intros d d' _ [= <-]. apply lookup_union_r. by apply strip_guarded. }
  split; [|split].
  - repeat split; apply Hframe; compute_done.
  - rewrite updateTicket_cases.
    destruct (ObjectId_parse id) as [oid|]; [|done].
    by destruct (findOne _ _).
  - intros oid t v Hid Hf Hq.
    rewrite updateTicket_cases, Hid, Hf. split; [done|].
    cbn [snd put tickets]. unfold field.
    rewrite (findOne_after_set _ _ _ t); [| |done].
    + simpl. apply lookup_union_Some_l.
      rewrite strip_other; [done|compute_done|done].
    + repeat constructor. simpl. apply strip_guarded. compute_done.
Qed.

Lemma newTicket_status ticketData now :
  newTicket ticketData now !! "verificationStatus" = Some (VStr "pending").
Proof. unfold newTicket. by simplify_map_eq. Qed.

Lemma newTicket_flag ticketData now :
  newTicket ticketData now !! "isAdvertised" = Some (VBool false).
Proof. unfold newTicket. by simplify_map_eq. Qed.

Lemma with_id_other gen (d : doc) k :
  k ≠ "_id" → with_id gen d !! k = d !! k.
Proof.
  intros Hk. unfold with_id.
  destruct (d !! "_id") as [[]|]; by rewrite ?lookup_insert_ne.
Qed.

(** C10. Whatever the request body holds, the ticket that creation stores has
    [verificationStatus] = [pending] and [isAdvertised] = [false]. It is
    stored at the end of the collection, with answer 201, unless its [_id]
    is already taken, in which case nothing is stored. *)
Theorem createTicket_defaults (ticketData : doc) now gen st :
  let t := with_id gen (newTicket ticketData now) in
  t !! "verificationStatus" = Some (VStr "pending")
  ∧ t !! "isAdvertised" = Some (VBool false)
  ∧ createTicket ticketData now gen st
    = if existsb (has_id (t !! "_id")) (tickets st) then
        (Resp 500 "Failed to add ticket", st)
      else
        (Resp 201 "Ticket added successfully. Waiting for admin approval.",
         put Tickets (tickets st ++ [t]) st).
Proof.
  intros t. subst t. split; [|split].
  - rewrite with_id_other by done. apply newTicket_status.
  - rewrite with_id_other by done. apply newTicket_flag.
  - unfold createTicket, run, bind, insertOneM, insertOne. cbn [get].
    by destruct (existsb _ _).
Qed.

End Tickets.

(** ** The booking state machine and the ledger *)

Section Bookings.

Context {rt : Runtime}.

Lemma acceptBooking_cases id now st :
  acceptBooking id now st
  = match ObjectId_parse id with
    | None => (Resp 400 "Invalid booking ID", st)
    | Some oid =>
        match findOne (by_id oid) (bookings st) with
        | None => (Resp 404 "Booking not found", st)
        | Some _ =>
            (Resp 200 "Booking accepted successfully",
             put Bookings
               (snd (updateOne (by_id oid) (USet (accepted_fields now))
                       (bookings st)))
               st)
        end
    end.
Proof.
  unfold acceptBooking.
  destruct (ObjectId_parse id) as [oid|]; [|done].
  exact (run_updateOne_set _ Bookings (by_id oid) _ _ _ st).
Qed.

Lemma rejectBooking_cases id now st :
  rejectBooking id now st
  = match ObjectId_parse id with
    | None => (Resp 400 "Invalid booking ID", st)
    | Some oid =>
        match findOne (by_id oid) (bookings st) with
        | None => (Resp 404 "Booking not found", st)
        | Some _ =>
            (Resp 200 "Booking rejected successfully",
             put Bookings
               (snd (updateOne (by_id oid) (USet (declined_fields now))
                       (bookings st)))
               st)
        end
    end.
Proof.
  unfold rejectBooking.
  destruct (ObjectId_parse id) as [oid|]; [|done].
  exact (run_updateOne_set _ Bookings (by_id oid) _ _ _ st).
Qed.

(** The status after a [$set] that writes it. *)
Lemma status_after_set (s : doc) v oid (l : list doc) d :
  s !! "_id" = None →
  s !! "status" = Some v →
  findOne (by_id oid) l = Some d →
  field (snd (updateOne (by_id oid) (USet s) l)) oid "status" = Some v.
Proof.
  intros Hid Hs Hf. unfold field.
  rewrite (findOne_after_set _ _ _ d); [| |done].
  - simpl. by apply lookup_union_Some_l.
  - by repeat constructor.
Qed.

(** C7, amended. Accepting or rejecting a booking that exists succeeds
    whatever its current status is, and overwrites the status; no status is
    refused. Only a booking that does not exist is answered with 404, and
    then nothing changes. *)
Theorem decide_unconditional id oid now st :
  ObjectId_parse id = Some oid →
  match findOne (by_id oid) (bookings st) with
  | Some b =>
      (fst (acceptBooking id now st) = Resp 200 "Booking accepted successfully"
       ∧ field (bookings (snd (acceptBooking id now st))) oid "status"
         = Some (VStr "accepted"))
      ∧ (fst (rejectBooking id now st)
         = Resp 200 "Booking rejected successfully"
         ∧ field (bookings (snd (rejectBooking id now st))) oid "status"
           = Some (VStr "rejected"))
  | None =>
      acceptBooking id now st = (Resp 404 "Booking not found", st)
      ∧ rejectBooking id now st = (Resp 404 "Booking not found", st)
  end.
Proof.
  intros Hid. rewrite acceptBooking_cases, rejectBooking_cases, Hid.
  destruct (findOne (by_id oid) (bookings st)) as [b|] eqn:Hf; [|done].
  cbn [fst snd put bookings].
  repeat split; by apply (status_after_set _ _ _ _ b).
Qed.

(** What [markPaid] does, case by case. *)
Lemma markPaid_cases id body now gen st :
  markPaid id body now gen st
  = match ObjectId_parse id with
    | None => (Resp 400 "Invalid booking ID", st)
    | Some oid =>
        match findOne (by_id oid) (bookings st) with
        | None => (Resp 404 "Booking not found", st)
        | Some b =>
            let paid :=
              put Bookings
                (snd (updateOne (by_id oid)
                        (USet (paid_fields (body !! "transactionId") now))
                        (bookings st)))
                st in
            match new_ObjectId gen (b !! "ticketId") with
            | None => (Resp 500 "Failed to record payment", paid)
            | Some ticketId =>
                match updateOne (by_id ticketId)
                        (UInc "quantity"
                           (neg (ToNumber (b !! "bookingQuantity"))))
                        (tickets st) with
                | (Some _, l) =>
                    (Resp 200 "Payment recorded successfully",
                     put Tickets l paid)
                | (None, l) =>
                    (Resp 500 "Failed to record payment", put Tickets l paid)
                end
            end
        end
    end.
Proof.
  unfold markPaid, run, bind, findOneM, reserve, updateOneM. cbn [get].
  fold (paid_fields (body !! "transactionId") now).
  destruct (ObjectId_parse id) as [oid|]; [|done].
  fold (by_id oid).
  destruct (findOne (by_id oid) (bookings st)) as [b|] eqn:Hf; [|done].
  destruct (updateOne_found _ (USet (paid_fields (body !! "transactionId") now))
              _ b _ Hf eq_refl) as [H _].
  destruct (updateOne (by_id oid) _ (bookings st)) as [n l].
  simpl in H. subst n. cbn [lift ret snd].
  destruct (new_ObjectId gen (b !! "ticketId")) as [tid|]; [|done].
  cbn [lift ret put get tickets]. fold (by_id tid).
  by destruct (updateOne (by_id tid) _ (tickets st)) as [[n|] l'].
Qed.

Lemma paid_fields_status v now :
  paid_fields v now !! "status" = Some (VStr "paid").
Proof. unfold paid_fields, obj. simpl. by simplify_map_eq. Qed.

(** The [$inc] on a ticket that exists and has a numeric quantity. *)
Lemma updateOne_inc tid n (l : list doc) t m :
  findOne (by_id tid) l = Some t →
  t !! "quantity" = Some (VNum m) →
  fst (updateOne (by_id tid) (UInc "quantity" n) l) = Some 1%nat
  ∧ findOne (by_id tid) (snd (updateOne (by_id tid) (UInc "quantity" n) l))
    = Some (<["quantity" := VNum (add m n)]> t).
Proof.
  intros Hf Hq.
  assert (Hu : apply_update (UInc "quantity" n) t
               = Some (<["quantity" := VNum (add m n)]> t)).
  { unfold apply_update. by rewrite Hq. }
  destruct (updateOne_found _ _ _ _ _ Hf Hu) as [H1 H2].
  split; [done|]. apply H2.
  rewrite matches_insert_other by (by repeat constructor).
  unfold findOne in Hf. by apply find_some in Hf as [_ ?].
Qed.

Lemma reserve_step tid q st t r :
  findOne (by_id tid) (tickets st) = Some t →
  t !! "quantity" = Some (VNum (Int r)) →
  fst (reserve tid (Int q) st) = Ret 1%nat
  ∧ findOne (by_id tid) (tickets (snd (reserve tid (Int q) st)))
    = Some (<["quantity" := VNum (Int (r - q))]> t).
Proof.
  intros Hf Hq. unfold reserve, updateOneM. cbn [get].
  destruct (updateOne_inc tid (neg (Int q)) _ _ _ Hf Hq) as [H1 H2].
  fold (by_id tid).
  destruct (updateOne (by_id tid) _ (tickets st)) as [n l].
  simpl in H1, H2. subst n. cbn [lift ret fst snd put tickets].
  split; [done|]. rewrite H2. simpl. by rewrite Z.add_opp_r.
Qed.

(** C2, amended. The ledger step has no stock check: against a ticket that
    exists with remaining quantity [Q], a reservation of any [q] succeeds
    and leaves [Q - q]; after a sequence of reservations the remaining
    quantity is [Q] minus their sum, which is negative as soon as the sum
    exceeds [Q]. *)
Theorem reserve_unchecked tid t Q st :
  findOne (by_id tid) (tickets st) = Some t →
  t !! "quantity" = Some (VNum (Int Q)) →
  (∀ q,
     fst (reserve tid (Int q) st) = Ret 1%nat
     ∧ field (tickets (snd (reserve tid (Int q) st))) tid "quantity"
       = Some (VNum (Int (Q - q))))
  ∧ (∀ qs,
       field (tickets (reserves tid qs st)) tid "quantity"
       = Some (VNum (Int (Q - total qs)))).
Proof.
  intros Hf Hq. split.
  - intros q. destruct (reserve_step tid q st t Q Hf Hq) as [H1 H2].
    split; [done|]. unfold field. rewrite H2. simpl.
    by rewrite lookup_insert_eq.
  - intros qs. revert st t Q Hf Hq.
    induction qs as [|q qs IH]; intros st t Q Hf Hq; simpl.
    + unfold field. rewrite Hf. simpl. by rewrite Hq, Z.sub_0_r.
    + destruct (reserve_step tid q st t Q Hf Hq) as [_ H2].
      rewrite (IH _ _ (Q - q) H2) by (by rewrite lookup_insert_eq).
      do 3 f_equal. lia.
Qed.

(** The booking after [markPaid], whenever it exists. *)
Lemma markPaid_booking id oid b body now gen st :
  ObjectId_parse id = Some oid →
  findOne (by_id oid) (bookings st) = Some b →
  code (fst (markPaid id body now gen st)) ≠ 400%nat
  ∧ findOne (by_id oid) (bookings (snd (markPaid id body now gen st)))
    = Some (paid_fields (body !! "transactionId") now ∪ b).
Proof.
  intros Hid Hf. rewrite markPaid_cases, Hid, Hf. cbn zeta.
  assert (Hfound :
    findOne (by_id oid)
      (snd (updateOne (by_id oid)
              (USet (paid_fields (body !! "transactionId") now)) (bookings st)))
    = Some (paid_fields (body !! "transactionId") now ∪ b)).
  { apply findOne_after_set; [|done]. repeat constructor. }
  destruct (new_ObjectId gen (b !! "ticketId")) as [tid|]; [|done].
  by destruct (updateOne (by_id tid) _ (tickets st)) as [[n|] l].
Qed.

(** C3, amended. [markPaid] does not look at the status: on a booking that
    exists it is never refused with a 400, and it sets the status to [paid]
    and records the transaction reference whatever the status was, pending,
    rejected and paid included. *)
Theorem markPaid_any_status id oid b body now gen st :
  ObjectId_parse id = Some oid →
  findOne (by_id oid) (bookings st) = Some b →
  code (fst (markPaid id body now gen st)) ≠ 400%nat
  ∧ field (bookings (snd (markPaid id body now gen st))) oid "status"
    = Some (VStr "paid")
  ∧ field (bookings (snd (markPaid id body now gen st))) oid "transactionId"
    = Some (bson (body !! "transactionId")).
Proof.
  intros Hid Hf.
  destruct (markPaid_booking id oid b body now gen st Hid Hf) as [H400 Hb].
  split; [done|]. unfold field. rewrite Hb. simpl.
  split; apply lookup_union_Some_l; unfold paid_fields, obj; simpl;
    by simplify_map_eq.
Qed.

(** C1, amended. [markPaid] never creates a Transaction record and has no
    stock check. With an invalid id or no such booking it changes nothing.
    On a booking that exists it sets the status to [paid]; when the booking
    names a ticket that exists, with remaining quantity [r], and asks for
    [q], the answer is 200 and the quantity becomes [r - q], also when
    [q] exceeds [r]. *)
Theorem markPaid_effects id body now gen st :
  transactions (snd (markPaid id body now gen st)) = transactions st
  ∧ match ObjectId_parse id with
    | None => markPaid id body now gen st = (Resp 400 "Invalid booking ID", st)
    | Some oid =>
        match findOne (by_id oid) (bookings st) with
        | None =>
            markPaid id body now gen st = (Resp 404 "Booking not found", st)
        | Some b =>
            field (bookings (snd (markPaid id body now gen st))) oid "status"
            = Some (VStr "paid")
            ∧ ∀ tid t r q,
                new_ObjectId gen (b !! "ticketId") = Some tid →
                findOne (by_id tid) (tickets st) = Some t →
                t !! "quantity" = Some (VNum (Int r)) →
                ToNumber (b !! "bookingQuantity") = Int q →
                fst (markPaid id body now gen st)
                = Resp 200 "Payment recorded successfully"
                ∧ field (tickets (snd (markPaid id body now gen st))) tid
                    "quantity"
                  = Some (VNum (Int (r - q)))
        end
    end.
Proof.
  rewrite markPaid_cases.
  destruct (ObjectId_parse id) as [oid|] eqn:Hid; [|done].
  destruct (findOne (by_id oid) (bookings st)) as [b|] eqn:Hf; [|done].
  cbn zeta. split; [|split].
  - destruct (new_ObjectId gen (b !! "ticketId")) as [tid|]; [|done].
    by destruct (updateOne (by_id tid) _ (tickets st)) as [[n|] l].
  - pose proof (markPaid_booking id oid b body now gen st Hid Hf) as [_ H].
    rewrite markPaid_cases, Hid, Hf in H. cbn zeta in H.
    unfold field. rewrite H. simpl.
    apply lookup_union_Some_l, paid_fields_status.
  - intros tid t r q Htid Ht Hr Hq. rewrite Htid, Hq.
    destruct (updateOne_inc tid (neg (Int q)) _ _ _ Ht Hr) as [H1 H2].
    destruct (updateOne (by_id tid) _ (tickets st)) as [n l].
    simpl in H1, H2. subst n. cbn [fst snd put tickets].
    split; [done|]. unfold field. rewrite H2. simpl.
    by rewrite lookup_insert_eq, Z.add_opp_r.
Qed.

End Bookings.

(** ** Which request writes which field of a ticket *)

Section Ownership.

Context {rt : Runtime}.

Lemma apply_update_untouched u (d d' : doc) k :
  apply_update u d = Some d' → ¬ touches u k → d' !! k = d !! k.
Proof.
  destruct u as [s|k' n]; simpl.
  - intros [= <-] H. apply lookup_union_r. by apply eq_None_not_Some.
  - destruct (d !! k') as [[]|]; intros [= <-] H; by rewrite lookup_insert_ne.
Qed.

Lemma advert_fields_other v now k :
  k ≠ "isAdvertised" → k ≠ "advertisedAt" → advert_fields v now !! k = None.
Proof. intros. unfold advert_fields, obj. simpl. by simplify_map_eq. Qed.

(** Each handler, seen from the tickets. *)
Lemma handle_tickets req now st :
  tickets_effect req now (tickets st) (tickets (snd (handle req now st))).
Proof.
  destruct req as [email|ticketData gen|id body|id body|id body|bookingData gen
                  |id|id|id body gen|transactionData gen]; simpl.
  - rewrite markVendorFraudulent_cases.
    destruct (findOne _ _); [|constructor].
    cbn [snd tickets]. by apply effect_many.
  - unfold createTicket, run, bind, insertOneM, insertOne. cbn [get].
    destruct (existsb _ _); [constructor|].
    cbn [snd put tickets]. by eapply effect_insert.
  - rewrite updateTicket_cases.
    destruct (ObjectId_parse id) as [oid|]; [|constructor].
    destruct (findOne _ _); [|constructor].
    cbn [snd put tickets]. apply effect_one. split; [by exists oid|done].
  - rewrite verifyTicket_cases.
    destruct (ObjectId_parse id) as [oid|]; [|constructor].
    destruct (includes _ _) eqn:E; [|constructor].
    destruct (findOne _ _); [|constructor].
    cbn [negb snd put tickets]. apply effect_one.
    split; [by exists oid|done].
  - rewrite advertise_cases.
    destruct (ObjectId_parse id) as [oid|]; [|constructor].
    destruct (_ && _); [constructor|].
    destruct (findOne _ _); [|constructor].
    cbn [snd put tickets]. apply effect_one. split; [by exists oid|done].
  - unfold createBooking, run, bind, insertOneM.
    destruct (insertOne _ _ _); constructor.
  - rewrite acceptBooking_cases.
    destruct (ObjectId_parse id); [|constructor].
    destruct (findOne _ _); constructor.
  - rewrite rejectBooking_cases.
    destruct (ObjectId_parse id); [|constructor].
    destruct (findOne _ _); constructor.
  - rewrite markPaid_cases.
    destruct (ObjectId_parse id) as [oid|]; [|constructor].
    destruct (findOne _ _) as [b|]; [|constructor]. cbn zeta.
    destruct (new_ObjectId gen (b !! "ticketId")) as [tid|]; [|constructor].
    match goal with
    | |- context [updateOne ?q ?u ?c] =>
        pose proof (effect_one (MarkPaid id body gen) now c q u) as H;
        destruct (updateOne q u c) as [[n|] l]
    end; cbn [snd put tickets] in *; apply H; (split; [by exists tid|by eexists]).
  - unfold saveTransaction, run, bind, insertOneM.
    destruct (insertOne _ _ _); constructor.
Qed.

(** A relation that every write of the request respects holds between the
    stored tickets before and after. *)
Lemma effect_stored (R : doc → doc → Prop) req now (c c' : list doc) :
  (∀ d, R d d) →
  (∀ q u d d',
     ticket_write req now q u → matches q d = true →
     apply_update u d = Some d' → R d d') →
  tickets_effect req now c c' →
  Forall2 R c (take (length c) c').
Proof.
  intros Hrefl Hw [|ticketData gen _|q u Hq|q u Hq].
  - rewrite firstn_all. by apply Forall2_diag.
  - rewrite take_app_length. by apply Forall2_diag.
  - assert (H : Forall2 R c (snd (updateOne q u c)))
      by (apply updateOne_Forall2; eauto).
    by rewrite (Forall2_length _ _ _ H), firstn_all.
  - assert (H : Forall2 R c (snd (updateMany q u c)))
      by (apply updateMany_Forall2; eauto).
    by rewrite (Forall2_length _ _ _ H), firstn_all.
Qed.

Lemma Forall2_transfer (P : doc → Prop) (c c' : list doc) :
  Forall P c → Forall2 (fun d d' => P d → P d') c c' → Forall P c'.
Proof. intros Hc H. induction H; inversion Hc; constructor; auto. Qed.

(** A property of tickets that every write of the request keeps, and that
    a new ticket has, holds of all tickets after the request. *)
Lemma effect_all (P : doc → Prop) req now (c c' : list doc) :
  (∀ ticketData gen, P (with_id gen (newTicket ticketData now))) →
  (∀ q u d d',
     ticket_write req now q u → matches q d = true →
     apply_update u d = Some d' → P d → P d') →
  tickets_effect req now c c' →
  Forall P c → Forall P c'.
Proof.
  intros Hnew Hw [|ticketData gen _|q u Hq|q u Hq] Hc.
  - done.
  - apply Forall_app. split; [done|]. by repeat constructor.
  - apply (Forall2_transfer P c); [done|].
    apply updateOne_Forall2; eauto.
  - apply (Forall2_transfer P c); [done|].
    apply updateMany_Forall2; eauto.
Qed.

(** C9, amended. Of the requests that write the database, only [markPaid]
    and the vendor's update change the quantity of a stored ticket, only the
    verification and the fraud cascade change its verification status, and
    only [advertise] changes its advertised flag. The vendor's update leaves
    the verification status, the advertised flag, the vendor and the id of
    every ticket as they were, by the fields it strips; the quantity is not
    among them, and a [quantity] in the body is written to the ticket. *)
Theorem field_ownership req now st :
  (writes_quantity req = false →
   same_field "quantity" (tickets st) (stored st (snd (handle req now st))))
  ∧ (writes_status req = false →
     same_field "verificationStatus" (tickets st)
       (stored st (snd (handle req now st))))
  ∧ (writes_flag req = false →
     same_field "isAdvertised" (tickets st)
       (stored st (snd (handle req now st))))
  ∧ (∀ id body,
       req = UpdateTicket id body →
       (same_field "verificationStatus" (tickets st)
          (tickets (snd (handle req now st)))
        ∧ same_field "isAdvertised" (tickets st)
            (tickets (snd (handle req now st)))
        ∧ same_field "vendorEmail" (tickets st)
            (tickets (snd (handle req now st)))
        ∧ same_field "_id" (tickets st) (tickets (snd (handle req now st))))
       ∧ ∀ oid t v,
           ObjectId_parse id = Some oid →
           findOne (by_id oid) (tickets st) = Some t →
           body !! "quantity" = Some v →
           fst (handle req now st) = Resp 200 "Ticket updated successfully"
           ∧ field (tickets (snd (handle req now st))) oid "quantity"
             = Some v).
Proof.
  pose proof (handle_tickets req now st) as Heff.
  assert (Hkeep : ∀ k,
    (∀ q u, ticket_write req now q u → ¬ touches u k) →
    same_field k (tickets st) (stored st (snd (handle req now st)))).
  { intros k Hk. unfold same_field, stored.
    apply (effect_stored _ req now); [done| |done].
    intros q u d d' Hw _ Hu. eapply apply_update_untouched; eauto. }
  split; [|split; [|split]].
  - intros Hreq. apply Hkeep. intros q u Hw.
    destruct req; try done; simpl in Hw.
    + destruct Hw as [_ ->]. simpl.
      rewrite rejected_fields_other by done. by intros [? ?].
    + destruct Hw as (_ & _ & ->). simpl.
      rewrite verified_fields_other by done. by intros [? ?].
    + destruct Hw as [_ ->]. simpl.
      rewrite advert_fields_other by done. by intros [? ?].
  - intros Hreq. apply Hkeep. intros q u Hw.
    destruct req; try done; simpl in Hw.
    + destruct Hw as [_ ->]. simpl.
      rewrite strip_guarded by compute_done. by intros [? ?].
    + destruct Hw as [_ ->]. simpl.
      rewrite advert_fields_other by done. by intros [? ?].
    + by destruct Hw as (_ & n & ->).
  - intros Hreq. apply Hkeep. intros q u Hw.
    destruct req; try done; simpl in Hw.
    + destruct Hw as [_ ->]. simpl.
      rewrite rejected_fields_other by done. by intros [? ?].
    + destruct Hw as [_ ->]. simpl.
      rewrite strip_guarded by compute_done. by intros [? ?].
    + destruct Hw as (_ & _ & ->). simpl.
      rewrite verified_fields_other by done. by intros [? ?].
    + by destruct Hw as (_ & n & ->).
  - intros id body ->. simpl.
    destruct (updateTicket_frame id body now st)
      as ((H1 & H2 & H3 & H4) & _ & H5).
    split; [by repeat split | exact H5].
Qed.

(** C5, amended. Every request except a rejection preserves the invariant
    that a ticket is advertised only if it is approved. A rejection, by the
    admin's verification or by the fraud cascade, writes the verification
    status and leaves the advertised flag of every ticket as it was: a
    ticket rejected while advertised stays flagged, but it no longer counts
    among the advertised and approved tickets, so the number of slots held
    does not grow. *)
Theorem ticket_invariant_except_rejection req now st :
  (advertised_only_if_approved st → ¬ rejects req →
   advertised_only_if_approved (snd (handle req now st)))
  ∧ (rejects req →
     same_field "isAdvertised" (tickets st) (tickets (snd (handle req now st)))
     ∧ (slots_held (snd (handle req now st)) ≤ slots_held st)%nat)
  ∧ (∀ id body oid t,
       req = VerifyTicket id body →
       body !! "verificationStatus" = Some (VStr "rejected") →
       ObjectId_parse id = Some oid →
       findOne (by_id oid) (tickets st) = Some t →
       ∃ t',
         findOne (by_id oid) (tickets (snd (handle req now st))) = Some t'
         ∧ t' !! "verificationStatus" = Some (VStr "rejected")
         ∧ t' !! "isAdvertised" = t !! "isAdvertised").
Proof.
  split; [|split].
  - intros Hinv Hrej. unfold advertised_only_if_approved in *.
    apply (effect_all _ req now (tickets st)); [| |apply handle_tickets|done].
    { intros ticketData gen Hflag.
      rewrite with_id_other, newTicket_flag in Hflag; done. }
    intros q u d d' Hw Hm Hu Hd.
    assert (Hsame : ¬ touches u "isAdvertised" →
                    ¬ touches u "verificationStatus" →
                    flag_implies_approved d').
    { intros H1 H2 Hflag.
      rewrite (apply_update_untouched _ _ _ _ Hu H1) in Hflag.
      rewrite (apply_update_untouched _ _ _ _ Hu H2). by apply Hd. }
    destruct req; try done; simpl in Hw, Hrej.
    + destruct Hw as [_ ->]. apply Hsame; simpl;
        rewrite strip_guarded by compute_done; by intros [? ?].
    + destruct Hw as (_ & Hin & ->). intros _.
      injection Hu as <-. apply lookup_union_Some_l.
      rewrite verified_fields_status.
      destruct (body !! "verificationStatus") as [[| | |s| |]|]; try done.
      simpl in Hin. apply bool_decide_eq_true in Hin.
      repeat (apply elem_of_cons in Hin as [->|Hin]); try done.
      by apply elem_of_nil in Hin.
    + destruct Hw as ([oid ->] & ->). intros _.
      injection Hu as <-.
      rewrite lookup_union_r by (by apply advert_fields_other).
      unfold approved_by_id, matches in Hm. simpl in Hm.
      rewrite andb_true_r in Hm. apply andb_true_iff in Hm as [_ Hm].
      rewrite field_matches_eq in Hm by done.
      by apply bool_decide_eq_true in Hm.
    + destruct Hw as (_ & n & ->). by apply Hsame; simpl.
  - intros Hrej.
    destruct req as [email| |?|id body| | | | | |]; try done; simpl in *.
    + destruct (rejection_keeps_flag EmptyString ∅ now email st) as (_ & H1 & H2 & _).
      by split.
    + destruct (rejection_keeps_flag id body now EmptyString st) as (H1 & _ & _ & H2).
      split; [done|]. by apply H2.
  - intros id body oid t -> Hb Hid Hf. simpl.
    destruct (rejection_keeps_flag id body now EmptyString st) as (_ & _ & _ & H).
    destruct (H Hb) as [_ H']. by apply (H' oid t).
Qed.

End Ownership.

(** ** The handlers on the example data

    Times are milliseconds; [99] stands for an id the driver generates. *)

Section Examples.

#[local] Existing Instance Hex.runtime.

(** Paying for three seats of a ticket with one left: the booking becomes
    [paid], the quantity becomes [-2] and no Transaction record appears, so
    the three effects are neither all committed nor all absent. *)
Lemma markPaid_not_all_or_nothing :
  ¬ markPaid_all_or_nothing Ex.bookingId Ex.payment 1000 99
      (Ex.shop "accepted") 10 1 3.
Proof.
  intros [(_ & _ & Hlen) | (Hb & _ & _)].
  - vm_compute in Hlen. discriminate.
  - apply (f_equal (fun c => field c 10 "status")) in Hb.
    vm_compute in Hb. discriminate.
Qed.

Lemma markPaid_effects_witness :
  transactions (snd (markPaid Ex.bookingId Ex.payment 1000 99
                       (Ex.shop "accepted"))) = []
  ∧ field (bookings (snd (markPaid Ex.bookingId Ex.payment 1000 99
                            (Ex.shop "accepted")))) 10 "status"
    = Some (VStr "paid")
  ∧ fst (markPaid Ex.bookingId Ex.payment 1000 99 (Ex.shop "accepted"))
    = Resp 200 "Payment recorded successfully"
  ∧ field (tickets (snd (markPaid Ex.bookingId Ex.payment 1000 99
                           (Ex.shop "accepted")))) 1 "quantity"
    = Some (VNum (Int (1 - 3))).
Proof.
  pose proof (markPaid_effects Ex.bookingId Ex.payment 1000 99
                (Ex.shop "accepted")) as [Ht H].
  change (ObjectId_parse Ex.bookingId) with (Some 10%N) in H.
  change (findOne (by_id 10) (bookings (Ex.shop "accepted")))
    with (Some (Ex.booking "accepted")) in H.
  destruct H as [Hs Hq].
  split; [exact Ht|]. split; [exact Hs|].
  apply (Hq 1%N Ex.ticket 1 3); reflexivity.
Defined.

(** One seat left, three reserved: the reservation goes through and the
    remaining quantity is negative. *)
Lemma reserve_not_bounded : ¬ reserve_bounded 1 3 (Ex.shop "accepted").
Proof.
  intros H. destruct (H 1 (-2)) as [_ Hneg]; [reflexivity..|]. lia.
Qed.

Lemma reserve_unchecked_witness :
  (findOne (by_id 1) (tickets (Ex.shop "accepted")) = Some Ex.ticket
   ∧ Ex.ticket !! "quantity" = Some (VNum (Int 1)))
  ∧ (fst (reserve 1 (Int 3) (Ex.shop "accepted")) = Ret 1%nat
     ∧ field (tickets (snd (reserve 1 (Int 3) (Ex.shop "accepted")))) 1
         "quantity"
       = Some (VNum (Int (1 - 3))))
  ∧ field (tickets (reserves 1 [3; 2] (Ex.shop "accepted"))) 1 "quantity"
    = Some (VNum (Int (1 - total [3; 2]))).
Proof.
  assert (Hf : findOne (by_id 1) (tickets (Ex.shop "accepted"))
               = Some Ex.ticket) by reflexivity.
  assert (Hq : Ex.ticket !! "quantity" = Some (VNum (Int 1))) by reflexivity.
  destruct (reserve_unchecked 1 Ex.ticket 1 (Ex.shop "accepted") Hf Hq)
    as [H1 H2].
  split; [by split|]. split; [apply H1 | apply H2].
Defined.

(** A rejected booking is paid all the same. *)
Lemma markPaid_not_only_accepted :
  ¬ markPaid_only_accepted Ex.bookingId Ex.payment 1000 99
      (Ex.shop "rejected").
Proof.
  intros H.
  destruct (H 10%N (Ex.booking "rejected")) as [Hc Hb];
    [reflexivity | reflexivity | by vm_compute |].
  by apply Hc.
Qed.

Lemma markPaid_any_status_witness :
  (ObjectId_parse Ex.bookingId = Some 10%N
   ∧ findOne (by_id 10) (bookings (Ex.shop "rejected"))
     = Some (Ex.booking "rejected"))
  ∧ code (fst (markPaid Ex.bookingId Ex.payment 1000 99
                 (Ex.shop "rejected"))) ≠ 400%nat
  ∧ field (bookings (snd (markPaid Ex.bookingId Ex.payment 1000 99
                            (Ex.shop "rejected")))) 10 "status"
    = Some (VStr "paid")
  ∧ field (bookings (snd (markPaid Ex.bookingId Ex.payment 1000 99
                            (Ex.shop "rejected")))) 10 "transactionId"
    = Some (bson (Ex.payment !! "transactionId")).
Proof.
  split; [by split|].
  apply (markPaid_any_status Ex.bookingId 10 (Ex.booking "rejected"));
    reflexivity.
Defined.

(** Accepting a booking that is already paid succeeds and un-pays it. *)
Lemma acceptBooking_not_only_pending :
  ¬ decide_only_pending acceptBooking Ex.bookingId 1000 (Ex.shop "paid").
Proof.
  intros H.
  destruct (H 10%N (Ex.booking "paid")) as [Hc Hb];
    [reflexivity | reflexivity | by vm_compute |].
  by apply Hc.
Qed.

Lemma decide_unconditional_witness :
  ObjectId_parse Ex.bookingId = Some 10%N
  ∧ (fst (acceptBooking Ex.bookingId 1000 (Ex.shop "paid"))
     = Resp 200 "Booking accepted successfully"
     ∧ field (bookings (snd (acceptBooking Ex.bookingId 1000
                               (Ex.shop "paid")))) 10 "status"
       = Some (VStr "accepted"))
  ∧ (fst (rejectBooking Ex.bookingId 1000 (Ex.shop "paid"))
     = Resp 200 "Booking rejected successfully"
     ∧ field (bookings (snd (rejectBooking Ex.bookingId 1000
                               (Ex.shop "paid")))) 10 "status"
       = Some (VStr "rejected")).
Proof.
  assert (Hid : ObjectId_parse Ex.bookingId = Some 10%N) by reflexivity.
  split; [exact Hid|].
  exact (decide_unconditional Ex.bookingId 10 1000 (Ex.shop "paid") Hid).
Defined.

Lemma grantSlot_pool_bound_witness :
  (slots_held Ex.full_house ≤ 6)%nat
  ∧ (slots_held
       (grants [("000000000000000000000007", 1000%Z);
                ("000000000000000000000001", 2000%Z)] Ex.full_house) ≤ 6)%nat
  ∧ grantSlot "000000000000000000000007" 1000 Ex.full_house
    = (Resp 400
         "Cannot advertise more than 6 tickets. Please unadvertise one first.",
       Ex.full_house).
Proof.
  assert (H : (slots_held Ex.full_house ≤ 6)%nat) by (vm_compute; lia).
  destruct (grantSlot_pool_bound Ex.full_house H) as [H1 H2].
  split; [exact H|]. split; [apply H1|].
  apply (H2 _ 7%N); reflexivity.
Defined.

(** Rejecting an approved, advertised ticket leaves it flagged: advertised
    and not approved. *)
Lemma rejection_breaks_flag_invariant :
  advertised_only_if_approved (Ex.shop "pending")
  ∧ ¬ advertised_only_if_approved
        (snd (verifyTicket Ex.ticketId
                (obj [("verificationStatus", VStr "rejected")]) 1000
                (Ex.shop "pending"))).
Proof.
  split.
  - repeat constructor.
  - intros H. apply Forall_inv in H.
    specialize (H eq_refl). vm_compute in H. discriminate.
Qed.

Lemma ticket_invariant_except_rejection_witness :
  (advertised_only_if_approved (Ex.shop "pending")
   ∧ ¬ rejects (Advertise Ex.ticketId (obj [("isAdvertised", VBool false)]))
   ∧ rejects (VerifyTicket Ex.ticketId
                (obj [("verificationStatus", VStr "rejected")])))
  ∧ advertised_only_if_approved
      (snd (handle (Advertise Ex.ticketId (obj [("isAdvertised", VBool false)]))
              1000 (Ex.shop "pending")))
  ∧ same_field "isAdvertised" (tickets (Ex.shop "pending"))
      (tickets (snd (handle (VerifyTicket Ex.ticketId
                               (obj [("verificationStatus", VStr "rejected")]))
                       1000 (Ex.shop "pending"))))
  ∧ ∃ t',
      findOne (by_id 1)
        (tickets (snd (handle (VerifyTicket Ex.ticketId
                                 (obj [("verificationStatus", VStr "rejected")]))
                         1000 (Ex.shop "pending")))) = Some t'
      ∧ t' !! "verificationStatus" = Some (VStr "rejected")
      ∧ t' !! "isAdvertised" = Ex.ticket !! "isAdvertised".
Proof.
  assert (Hinv : advertised_only_if_approved (Ex.shop "pending"))
    by repeat constructor.
  assert (Hno : ¬ rejects (Advertise Ex.ticketId
                             (obj [("isAdvertised", VBool false)])))
    by (intros []).
  assert (Hrej : rejects (VerifyTicket Ex.ticketId
                            (obj [("verificationStatus", VStr "rejected")])))
    by reflexivity.
  destruct (ticket_invariant_except_rejection
              (Advertise Ex.ticketId (obj [("isAdvertised", VBool false)]))
              1000 (Ex.shop "pending")) as (H1 & _ & _).
  destruct (ticket_invariant_except_rejection
              (VerifyTicket Ex.ticketId
                 (obj [("verificationStatus", VStr "rejected")]))
              1000 (Ex.shop "pending")) as (_ & H2 & H3).
  split; [by repeat split|]. split; [exact (H1 Hinv Hno)|].
  split; [exact (proj1 (H2 Hrej))|].
  apply (H3 Ex.ticketId (obj [("verificationStatus", VStr "rejected")])
            1%N Ex.ticket); reflexivity.
Defined.

(** After the fraud cascade the vendor's ticket is rejected and still
    flagged as advertised. *)
Lemma markVendorFraudulent_keeps_flag :
  ¬ vendor_tickets_cleared "vendor@nexticket.io"
      (snd (markVendorFraudulent "vendor@nexticket.io" 1000
              (Ex.shop "pending"))).
Proof.
  intros H. apply Forall_inv in H.
  destruct (H eq_refl) as [_ Hflag]. vm_compute in Hflag. discriminate.
Qed.

Lemma markVendorFraudulent_idempotent_witness :
  fst (markVendorFraudulent "vendor@nexticket.io" 1000 (Ex.shop "pending"))
  = Resp 200 "Vendor marked as fraud and all tickets hidden"
  ∧ Forall (fun t : doc =>
              t !! "vendorEmail" = Some (VStr "vendor@nexticket.io") →
              t !! "verificationStatus" = Some (VStr "rejected")
              ∧ matches advertised_query t = false)
           (tickets (snd (markVendorFraudulent "vendor@nexticket.io" 1000
                            (Ex.shop "pending"))))
  ∧ markVendorFraudulent "vendor@nexticket.io" 2000
      (snd (markVendorFraudulent "vendor@nexticket.io" 1000
              (Ex.shop "pending")))
    = markVendorFraudulent "vendor@nexticket.io" 2000 (Ex.shop "pending").
Proof.
  assert (Hr : fst (markVendorFraudulent "vendor@nexticket.io" 1000
                      (Ex.shop "pending"))
               = Resp 200 "Vendor marked as fraud and all tickets hidden")
    by reflexivity.
  destruct (markVendorFraudulent_idempotent "vendor@nexticket.io" 1000 2000
              (Ex.shop "pending")) as (H1 & _ & H3).
  split; [exact Hr|]. split; [exact (H1 Hr) | exact H3].
Defined.

(** Revoking the slot of a rejected ticket that still carries the flag is
    answered with 404 and the flag stays. *)
Lemma revokeSlot_refuses_rejected :
  ¬ revokeSlot_unconditional Ex.ticketId 1000 Ex.stale_shop.
Proof.
  intros H.
  destruct (H 1%N Ex.rejected_ticket) as [Hc _]; [reflexivity..|].
  vm_compute in Hc. discriminate.
Qed.

Lemma revokeSlot_approved_only_witness :
  ObjectId_parse Ex.ticketId = Some 1%N
  ∧ fst (revokeSlot Ex.ticketId 1000 (Ex.shop "pending"))
    = Resp 200 "Ticket unadvertised successfully"
  ∧ revokeSlot Ex.ticketId 1000 Ex.stale_shop
    = (Resp 404 "Ticket not found or not approved", Ex.stale_shop).
Proof.
  assert (Hid : ObjectId_parse Ex.ticketId = Some 1%N) by reflexivity.
  pose proof (revokeSlot_approved_only Ex.ticketId 1 1000 (Ex.shop "pending")
                Hid) as H1.
  pose proof (revokeSlot_approved_only Ex.ticketId 1 1000 Ex.stale_shop Hid)
    as H2.
  change (findOne (approved_by_id 1) (tickets (Ex.shop "pending")))
    with (Some Ex.ticket) in H1.
  change (findOne (approved_by_id 1) (tickets Ex.stale_shop))
    with (@None doc) in H2.
  split; [exact Hid|]. split; [exact (proj1 H1) | exact H2].
Defined.

(** The vendor's update writes a [quantity] given in the body. *)
Lemma updateTicket_writes_quantity :
  ¬ updateTicket_frames_guarded Ex.ticketId
      (obj [("quantity", VNum (Int 99))]) 1000 (Ex.shop "pending").
Proof.
  intros [Hq _]. apply Forall2_cons_1 in Hq as [Hq _].
  vm_compute in Hq. discriminate.
Qed.

Lemma field_ownership_witness :
  (writes_quantity (Advertise Ex.ticketId (obj [("isAdvertised", VBool false)]))
   = false
   ∧ writes_status (UpdateTicket Ex.ticketId
                      (obj [("quantity", VNum (Int 99));
                            ("isAdvertised", VBool false)])) = false
   ∧ writes_flag (UpdateTicket Ex.ticketId
                    (obj [("quantity", VNum (Int 99));
                          ("isAdvertised", VBool false)])) = false)
  ∧ same_field "quantity" (tickets (Ex.shop "pending"))
      (stored (Ex.shop "pending")
         (snd (handle (Advertise Ex.ticketId
                         (obj [("isAdvertised", VBool false)]))
                 1000 (Ex.shop "pending"))))
  ∧ same_field "verificationStatus" (tickets (Ex.shop "pending"))
      (stored (Ex.shop "pending")
         (snd (handle (UpdateTicket Ex.ticketId
                         (obj [("quantity", VNum (Int 99));
                               ("isAdvertised", VBool false)]))
                 1000 (Ex.shop "pending"))))
  ∧ same_field "isAdvertised" (tickets (Ex.shop "pending"))
      (stored (Ex.shop "pending")
         (snd (handle (UpdateTicket Ex.ticketId
                         (obj [("quantity", VNum (Int 99));
                               ("isAdvertised", VBool false)]))
                 1000 (Ex.shop "pending"))))
  ∧ field (tickets (snd (handle (UpdateTicket Ex.ticketId
                                   (obj [("quantity", VNum (Int 99));
                                         ("isAdvertised", VBool false)]))
                           1000 (Ex.shop "pending")))) 1 "quantity"
    = Some (VNum (Int 99)).
Proof.
  destruct (field_ownership
              (Advertise Ex.ticketId (obj [("isAdvertised", VBool false)]))
              1000 (Ex.shop "pending")) as (Hq & _).
  destruct (field_ownership
              (UpdateTicket Ex.ticketId
                 (obj [("quantity", VNum (Int 99));
                       ("isAdvertised", VBool false)]))
              1000 (Ex.shop "pending")) as (_ & Hs & Hf & Hu).
  split; [by repeat split|].
  split; [exact (Hq eq_refl)|]. split; [exact (Hs eq_refl)|].
  split; [exact (Hf eq_refl)|].
  destruct (Hu Ex.ticketId
              (obj [("quantity", VNum (Int 99)); ("isAdvertised", VBool false)])
              eq_refl) as [_ Hw].
  apply (Hw 1%N Ex.ticket (VNum (Int 99))); reflexivity.
Defined.

(** When [new ObjectId(booking.ticketId)] throws, the answer is 500 and the
    booking is already paid; the tickets are as they were. *)
Lemma markPaid_partial_commit :
  fst (markPaid Ex.bookingId Ex.payment 1000 99 Ex.orphan_shop)
  = Resp 500 "Failed to record payment"
  ∧ field (bookings (snd (markPaid Ex.bookingId Ex.payment 1000 99
                            Ex.orphan_shop))) 10 "status"
    = Some (VStr "paid")
  ∧ tickets (snd (markPaid Ex.bookingId Ex.payment 1000 99 Ex.orphan_shop))
    = tickets Ex.orphan_shop.
Proof. by vm_compute. Qed.

(** The last free slot is granted, and the next grant is refused. *)
Lemma last_slot_then_full :
  slots_held Ex.five_slots = 5%nat
  ∧ fst (grantSlot "000000000000000000000006" 1000 Ex.five_slots)
    = Resp 200 "Ticket advertised successfully"
  ∧ slots_held (snd (grantSlot "000000000000000000000006" 1000 Ex.five_slots))
    = 6%nat
  ∧ fst (grantSlot "000000000000000000000007" 2000
           (snd (grantSlot "000000000000000000000006" 1000 Ex.five_slots)))
    = Resp 400
        "Cannot advertise more than 6 tickets. Please unadvertise one first.".
Proof. by vm_compute. Qed.

(** A ticket posted as approved and advertised is stored as pending and not
    advertised. *)
Lemma createTicket_overrides_body :
  let body :=
    obj [("title", VStr "Dhaka to Sylhet"); ("quantity", VNum (Int 40));
         ("verificationStatus", VStr "approved");
         ("isAdvertised", VBool true)] in
  let st' := snd (createTicket body 1000 2 (Ex.shop "pending")) in
  fst (createTicket body 1000 2 (Ex.shop "pending"))
  = Resp 201 "Ticket added successfully. Waiting for admin approval."
  ∧ field (tickets st') 2 "verificationStatus" = Some (VStr "pending")
  ∧ field (tickets st') 2 "isAdvertised" = Some (VBool false)
  ∧ field (tickets st') 2 "quantity" = Some (VNum (Int 40)).
Proof. by vm_compute. Qed.

(** Transaction records come from POST /api/transactions alone. *)
Lemma saveTransaction_records :
  length (transactions
            (snd (saveTransaction
                    (obj [("bookingId", VStr Ex.bookingId);
                          ("amount", VNum (Int 1500));
                          ("transactionId", VStr "pi_3Q")])
                    1000 300 (Ex.shop "paid")))) = 1%nat.
Proof. by vm_compute. Qed.

End Examples.

(** ** More facts about the collection operations *)

Section MoreMongoFacts.

Implicit Types (q f : filter) (u : update) (c l : list doc) (d : doc).

Lemma countDocuments_app f l1 l2 :
  countDocuments f (l1 ++ l2)
  = (countDocuments f l1 + countDocuments f l2)%nat.
Proof. unfold countDocuments. by rewrite List.filter_app, length_app. Qed.

Lemma findOne_app q l1 l2 :
  findOne q (l1 ++ l2)
  = match findOne q l1 with
    | Some d => Some d
    | None => findOne q l2
    end.
Proof.
  unfold findOne. induction l1 as [|d l1 IH]; simpl; [done|].
  by destruct (matches q d).
Qed.

Lemma findOne_matches q c d : findOne q c = Some d → matches q d = true.
Proof. unfold findOne. intros H. by apply find_some in H as [_ ?]. Qed.

Lemma findOne_none_count q c : findOne q c = None ↔ countDocuments q c = 0%nat.
Proof.
  unfold findOne, countDocuments. induction c as [|d c IH]; simpl; [done|].
  destruct (matches q d); simpl; [done|]. apply IH.
Qed.

(** The first match splits the collection. *)
Lemma findOne_split q c d :
  findOne q c = Some d →
  ∃ l1 l2, c = l1 ++ d :: l2 ∧ findOne q l1 = None.
Proof.
  unfold findOne. induction c as [|e c IH]; simpl; [done|].
  destruct (matches q e) eqn:E.
  - intros [= ->]. by exists [], c.
  - intros H. destruct (IH H) as (l1 & l2 & -> & Hl1).
    exists (e :: l1), l2. split; [done|]. simpl. by rewrite E.
Qed.

Lemma deleteOne_split q l1 d l2 :
  findOne q l1 = None → matches q d = true →
  deleteOne q (l1 ++ d :: l2) = (1%nat, l1 ++ l2).
Proof.
  unfold findOne. induction l1 as [|e l1 IH]; simpl.
  - intros _ ->. done.
  - destruct (matches q e); [done|]. intros H Hd. by rewrite (IH H Hd).
Qed.

Lemma deleteOne_not_found q c :
  findOne q c = None → deleteOne q c = (0%nat, c).
Proof.
  unfold findOne. induction c as [|d c IH]; simpl; [done|].
  destruct (matches q d); [done|]. intros H. by rewrite (IH H).
Qed.

Lemma updateOne_split q u l1 d d' l2 :
  findOne q l1 = None → matches q d = true → apply_update u d = Some d' →
  updateOne q u (l1 ++ d :: l2) = (Some 1%nat, l1 ++ d' :: l2).
Proof.
  unfold findOne. induction l1 as [|e l1 IH]; simpl.
  - by intros _ -> ->.
  - destruct (matches q e); [done|]. intros H Hd Hu. by rewrite (IH H Hd Hu).
Qed.

(** How one update moves a count. *)
Lemma updateOne_count_exact f q u c d d' :
  findOne q c = Some d →
  apply_update u d = Some d' →
  (countDocuments f (snd (updateOne q u c))
   + (if matches f d then 1 else 0)
   = countDocuments f c + (if matches f d' then 1 else 0))%nat.
Proof.
  intros Hf Hu. destruct (findOne_split _ _ _ Hf) as (l1 & l2 & -> & Hl1).
  rewrite (updateOne_split _ _ _ _ _ _ Hl1 (findOne_matches _ _ _ Hf) Hu).
  simpl. rewrite !countDocuments_app. unfold countDocuments. simpl.
  destruct (matches f d), (matches f d'); simpl; lia.
Qed.

(** The duplicate check of [insertOne], as a query. *)
Lemma has_id_by_id (oid : N) c :
  existsb (has_id (Some (VId oid))) c = false
  ↔ findOne [("_id", VId oid)] c = None.
Proof.
  unfold findOne. induction c as [|d c IH]; simpl; [done|].
  unfold has_id at 1, matches at 1. simpl. rewrite andb_true_r.
  rewrite field_matches_eq by done.
  destruct (bool_decide (d !! "_id" = Some (VId oid))); simpl; [done|].
  apply IH.
Qed.

End MoreMongoFacts.

(** ** The routes on users, the deletion and the insertions, case by case *)

Section RouteCases.

Context {rt : Runtime}.

(** The shape of the three routes that insert. *)
Lemma run_insertOne msg c gen (d : doc) (r : response) st :
  run msg (let* _ := insertOneM c gen d in ret r) st
  = if existsb (has_id (with_id gen d !! "_id")) (get c st) then
      (Resp 500 msg, st)
    else (r, put c (get c st ++ [with_id gen d]) st).
Proof.
  unfold run, bind, insertOneM, insertOne.
  by destruct (existsb _ _).
Qed.

Lemma newUser_id user now : newUser user now !! "_id" = None.
Proof. done. Qed.

Lemma saveUser_cases user now gen st :
  saveUser user now gen st
  = match findOne [("email", bson (user !! "email"))] (users st) with
    | Some _ =>
        (Resp 200 "User updated successfully",
         put Users
           (snd (updateOne [("email", bson (user !! "email"))]
                   (USet (profile_fields user now)) (users st)))
           st)
    | None =>
        if existsb (has_id (Some (VId gen))) (users st) then
          (Resp 500 "Failed to save user", st)
        else
          (Resp 201 "User created successfully",
           put Users
             (users st ++ [<["_id" := VId gen]> (newUser user now)]) st)
    end.
Proof.
  unfold saveUser. unfold run at 1, bind at 1, findOneM at 1. cbn [get].
  fold (profile_fields user now) (newUser user now).
  destruct (findOne _ (users st)) as [u|] eqn:E.
  - pose proof (run_updateOne_set "Failed to save user" Users
                  [("email", bson (user !! "email"))] (profile_fields user now)
                  (Resp 200 "User updated successfully")
                  (Resp 200 "User updated successfully") st) as H.
    cbn [get] in H. rewrite E in H. rewrite <- H.
    unfold run, bind, updateOneM. cbn [get].
    destruct (updateOne _ _ (users st)) as [[n|] l]; simpl; [|done].
    by destruct (n =? 0)%nat.
  - pose proof (run_insertOne "Failed to save user" Users gen
                  (newUser user now)
                  (Resp 201 "User created successfully") st) as H.
    unfold with_id in H. rewrite newUser_id in H.
    rewrite lookup_insert_eq in H. exact H.
Qed.

Lemma updateRole_cases email body now st :
  updateRole email body now st
  = if negb (includes ["user"; "vendor"; "admin"] (body !! "role")) then
      (Resp 400 "Invalid role. Must be user, vendor, or admin", st)
    else
      match findOne (by_email email) (users st) with
      | None => (Resp 404 "User not found", st)
      | Some _ =>
          (Resp 200 (role_message (body !! "role")),
           put Users
             (snd (updateOne (by_email email)
                     (USet (role_fields (body !! "role") now)) (users st)))
             st)
      end.
Proof.
  unfold updateRole. destruct (negb _); [done|].
  exact (run_updateOne_set _ Users (by_email email) _ _ _ st).
Qed.

Lemma deleteTicket_cases id st :
  deleteTicket id st
  = match ObjectId_parse id with
    | None => (Resp 400 "Invalid ticket ID", st)
    | Some oid =>
        match findOne (by_id oid) (tickets st) with
        | None => (Resp 404 "Ticket not found", st)
        | Some _ =>
            (Resp 200 "Ticket deleted successfully",
             put Tickets (snd (deleteOne (by_id oid) (tickets st))) st)
        end
    end.
Proof.
  unfold deleteTicket, run, bind, deleteOneM. cbn [get].
  destruct (ObjectId_parse id) as [oid|]; [|done].
  fold (by_id oid).
  destruct (findOne (by_id oid) (tickets st)) as [t|] eqn:E.
  - destruct (findOne_split _ _ _ E) as (l1 & l2 & Hc & Hl1).
    rewrite Hc, (deleteOne_split _ _ _ _ Hl1 (findOne_matches _ _ _ E)).
    done.
  - rewrite (deleteOne_not_found _ _ E). simpl. by destruct st.
Qed.

Lemma createTicket_cases ticketData now gen st :
  createTicket ticketData now gen st
  = if existsb (has_id (with_id gen (newTicket ticketData now) !! "_id"))
         (tickets st) then
      (Resp 500 "Failed to add ticket", st)
    else
      (Resp 201 "Ticket added successfully. Waiting for admin approval.",
       put Tickets (tickets st ++ [with_id gen (newTicket ticketData now)]) st).
Proof. exact (run_insertOne _ Tickets _ _ _ st). Qed.

Lemma createBooking_cases bookingData now gen st :
  createBooking bookingData now gen st
  = if existsb (has_id (with_id gen (<["createdAt" := VDate now]> bookingData)
                        !! "_id")) (bookings st) then
      (Resp 500 "Failed to create booking", st)
    else
      (Resp 201 "Booking created successfully",
       put Bookings
         (bookings st
          ++ [with_id gen (<["createdAt" := VDate now]> bookingData)]) st).
Proof. exact (run_insertOne _ Bookings _ _ _ st). Qed.

Lemma saveTransaction_cases transactionData now gen st :
  saveTransaction transactionData now gen st
  = if existsb (has_id (with_id gen
                          (<["createdAt" := VDate now]> transactionData)
                        !! "_id")) (transactions st) then
      (Resp 500 "Failed to save transaction", st)
    else
      (Resp 201 "Transaction saved successfully",
       put Transactions
         (transactions st
          ++ [with_id gen (<["createdAt" := VDate now]> transactionData)]) st).
Proof. exact (run_insertOne _ Transactions _ _ _ st). Qed.

End RouteCases.

(** Every request, through its case lemma. *)
Ltac by_cases :=
  cbn [serve handle];
  rewrite ?markVendorFraudulent_cases, ?createTicket_cases,
    ?updateTicket_cases, ?verifyTicket_cases, ?advertise_cases,
    ?createBooking_cases, ?acceptBooking_cases, ?rejectBooking_cases,
    ?markPaid_cases, ?saveTransaction_cases, ?saveUser_cases,
    ?updateRole_cases, ?deleteTicket_cases;
  cbn zeta.

(** ** What every request leaves alone *)

Section Frames.

Context {rt : Runtime}.

(** X4. Each request writes only its own collections: the fraud cascade
    users and tickets, the ticket routes tickets, accept and reject
    bookings, [markPaid] bookings and tickets, the routes on users users,
    and only the posting of a transaction writes transactions. *)
Theorem collection_ownership w c now st :
  writes_coll w c = false → get c (snd (serve w now st)) = get c st.
Proof.
  intros Hw.
  destruct w as [[]| | |]; destruct c; try discriminate Hw; by_cases;
    repeat case_match; done.
Qed.

(** X5. A request answered with 400 or 404 has written nothing. *)
Theorem refusals_write_nothing w now st :
  code (fst (serve w now st)) = 400%nat
  ∨ code (fst (serve w now st)) = 404%nat →
  snd (serve w now st) = st.
Proof.
  destruct w as [[]| | |]; by_cases; repeat case_match;
    cbn [fst snd code]; intros [Hc|Hc]; try done; discriminate Hc.
Qed.

(** X6. A request whose path carries an id that is not an ObjectId is
    answered with 400 before anything is read or written. *)
Theorem malformed_id_refused w id msg now st :
  path_id w = Some (id, msg) →
  ObjectId_parse id = None →
  serve w now st = (Resp 400 msg, st).
Proof.
  intros Hp Hid.
  destruct w as [[]| | |]; simpl in Hp; try discriminate Hp;
    injection Hp as <- <-; by_cases; by rewrite Hid.
Qed.

End Frames.

(** ** The routes on users *)

Section UsersFacts.

Context {rt : Runtime}.

Lemma profile_fields_other user now k :
  k ≠ "name" → k ≠ "photoURL" → k ≠ "updatedAt" →
  profile_fields user now !! k = None.
Proof. intros. unfold profile_fields, obj. simpl. by simplify_map_eq. Qed.

Lemma role_fields_other role now k :
  k ≠ "role" → k ≠ "updatedAt" → role_fields role now !! k = None.
Proof. intros. unfold role_fields, obj. simpl. by simplify_map_eq. Qed.

Lemma by_email_matches email (u : doc) :
  matches (by_email email) u = true ↔ u !! "email" = Some (VStr email).
Proof.
  unfold by_email, matches. simpl. rewrite andb_true_r.
  rewrite field_matches_eq by done. apply bool_decide_eq_true.
Qed.

Lemma includes_elem arr v :
  includes arr v = true → ∃ s, v = Some (VStr s) ∧ s ∈ arr.
Proof.
  destruct v as [[| | |s| |]|]; try done. simpl.
  intros H. apply bool_decide_eq_true in H. by exists s.
Qed.

(** X1. Registration cannot grant or change a role: whatever the body
    holds, every stored user keeps its role, fraud flag, email and id, and
    a user that is added has the role [user] and is not marked as fraud. *)
Theorem saveUser_keeps_roles user now gen st :
  Forall2 (fun u u' : doc =>
             ∀ k, k ∈ ["role"; "isFraud"; "email"; "_id"] → u' !! k = u !! k)
    (users st)
    (take (length (users st)) (users (snd (saveUser user now gen st))))
  ∧ Forall (fun u : doc =>
              u !! "role" = Some (VStr "user")
              ∧ u !! "isFraud" = Some (VBool false))
      (drop (length (users st)) (users (snd (saveUser user now gen st))))
  ∧ (length (users (snd (saveUser user now gen st)))
     ≤ S (length (users st)))%nat.
Proof.
  rewrite saveUser_cases.
  destruct (findOne _ (users st)) as [u|] eqn:E; cbn [snd put users].
  - assert (H : Forall2 (fun u u' : doc =>
               ∀ k, k ∈ ["role"; "isFraud"; "email"; "_id"] → u' !! k = u !! k)
               (users st)
               (snd (updateOne [("email", bson (user !! "email"))]
                       (USet (profile_fields user now)) (users st)))).
    { apply updateOne_Forall2; [done|].
      intros d d' _ [= <-] k Hk. apply lookup_union_r.
      repeat (apply elem_of_cons in Hk as [->|Hk]); [..|by apply elem_of_nil in Hk];
        by apply profile_fields_other. }
    pose proof (Forall2_length _ _ _ H) as Hlen.
    rewrite Hlen at 1 2. rewrite firstn_all, drop_all. rewrite <- Hlen.
    split; [done|]. split; [constructor|lia].
  - destruct (existsb _ _); cbn [snd put users].
    + rewrite firstn_all, drop_all.
      split; [by apply Forall2_diag|]. split; [constructor|lia].
    + rewrite take_app_length, drop_app_length, length_app. simpl.
      split; [by apply Forall2_diag|]. split; [|lia].
      by repeat constructor.
Qed.

(** X2. Registration is an upsert on the email, and what it writes can be
    read back: unless it fails, GET /api/users/:email then finds a user
    with that email, with the posted name and photo, and the number of
    users with that email is what it was, or one if there was none. *)
Theorem saveUser_then_getUser user email now gen st :
  user !! "email" = Some (VStr email) →
  code (fst (saveUser user now gen st)) ≠ 500%nat →
  (∃ u,
     getUser email (snd (saveUser user now gen st)) = Data u
     ∧ u !! "email" = Some (VStr email)
     ∧ u !! "name" = Some (bson (user !! "name"))
     ∧ u !! "photoURL" = Some (bson (user !! "photoURL")))
  ∧ countDocuments (by_email email) (users (snd (saveUser user now gen st)))
    = (1 `max` countDocuments (by_email email) (users st))%nat.
Proof.
  intros He Hok. rewrite saveUser_cases in *. rewrite He in *. cbn [bson] in *.
  fold (by_email email) in *. unfold getUser. fold (by_email email).
  destruct (findOne (by_email email) (users st)) as [u|] eqn:E;
    cbn [snd put users] in *.
  - assert (Hu : u !! "email" = Some (VStr email))
      by (by apply by_email_matches, (findOne_matches _ (users st))).
    split.
    + rewrite (findOne_after_set _ _ _ u); [| |done].
      * eexists. split; [done|]. split; [|split].
        -- by rewrite lookup_union_r by (by apply profile_fields_other).
        -- by apply lookup_union_Some_l.
        -- by apply lookup_union_Some_l.
      * repeat constructor.
    + pose proof (updateOne_count_exact (by_email email) (by_email email)
                    (USet (profile_fields user now)) _ u _ E eq_refl) as Hc.
      rewrite matches_set_other in Hc by repeat constructor.
      rewrite (findOne_matches _ _ _ E) in Hc.
      assert (countDocuments (by_email email) (users st) ≠ 0%nat).
      { intros H0. apply findOne_none_count in H0. congruence. }
      lia.
  - destruct (existsb _ _); cbn [fst snd code put users] in *; [done|].
    assert (Hm : matches (by_email email)
                   (<["_id" := VId gen]> (newUser user now)) = true).
    { apply by_email_matches. rewrite lookup_insert_ne by done.
      unfold newUser, obj. simpl. rewrite He. by simplify_map_eq. }
    split.
    + rewrite findOne_app, E. unfold findOne. cbn [List.find]. rewrite Hm.
      eexists. split; [done|].
      rewrite !lookup_insert_ne by done. unfold newUser, obj. simpl.
      rewrite He. split; [|split]; by simplify_map_eq.
    + rewrite countDocuments_app. apply findOne_none_count in E. rewrite E.
      unfold countDocuments. cbn [List.filter]. by rewrite Hm.
Qed.

(** X3. Every request keeps the roles of the stored users among [user],
    [vendor] and [admin]. *)
Theorem roles_stay_valid w now st :
  valid_roles st → valid_roles (snd (serve w now st)).
Proof.
  unfold valid_roles. intros Hv.
  assert (Hset : ∀ q (s : doc),
    (s !! "role" = None
     ∨ ∃ r, r ∈ ["user"; "vendor"; "admin"] ∧ s !! "role" = Some (VStr r)) →
    Forall valid_role (snd (updateOne q (USet s) (users st)))).
  { intros q s Hs. apply (Forall2_transfer valid_role (users st)); [done|].
    apply updateOne_Forall2; [done|].
    intros d d' _ [= <-] (r & Hr & Hd).
    destruct Hs as [Hs|(r' & Hr' & Hs)].
    - exists r. split; [done|]. by rewrite lookup_union_r.
    - exists r'. split; [done|]. by apply lookup_union_Some_l. }
  destruct w as [[]| | |]; by_cases; repeat case_match;
    cbn [snd put users]; try done.
  - apply Hset. by left.
  - apply Hset. left. by apply profile_fields_other.
  - apply Forall_app. split; [done|]. repeat constructor.
    exists "user". split; [compute_done|done].
  - apply Hset. right.
    match goal with
    | Hn : negb (includes _ (?b !! "role")) = false |- _ =>
        apply negb_false_iff, includes_elem in Hn as (r & Hb & Hr);
        exists r; split; [done|]; rewrite Hb
    end.
    unfold role_fields, obj. simpl. by simplify_map_eq.
Qed.

(** X7. The role of a user can be set and read back; nothing else of the user
    changes but the time of the update: a vendor marked as fraud stays
    marked under a new role. *)
Theorem updateRole_then_getUser email body role u now st :
  body !! "role" = Some (VStr role) →
  role ∈ ["user"; "vendor"; "admin"] →
  findOne (by_email email) (users st) = Some u →
  fst (updateRole email body now st)
  = Resp 200 ("User role updated to " +:+ role)
  ∧ ∃ u',
      getUser email (snd (updateRole email body now st)) = Data u'
      ∧ u' !! "role" = Some (VStr role)
      ∧ ∀ k, k ≠ "role" → k ≠ "updatedAt" → u' !! k = u !! k.
Proof.
  intros Hb Hr Hf. rewrite updateRole_cases, Hb, Hf. cbn [includes].
  rewrite bool_decide_eq_true_2 by done. cbn [negb fst snd role_message].
  split; [done|]. unfold getUser. fold (by_email email).
  cbn [put users].
  rewrite (findOne_after_set _ _ _ u); [| |done].
  - eexists. split; [done|]. split.
    + apply lookup_union_Some_l. unfold role_fields, obj. simpl.
      by simplify_map_eq.
    + intros k H1 H2. apply lookup_union_r. by apply role_fields_other.
  - repeat constructor.
Qed.

Lemma vendor_query_by_email email (l : list doc) :
  findOne (by_email email) l = None → findOne (vendor_query email) l = None.
Proof.
  unfold findOne. induction l as [|d l IH]; [done|].
  cbn [List.find].
  replace (matches (vendor_query email) d)
    with (matches (by_email email) d
          && field_matches d ("role", VStr "vendor"))
    by (unfold matches, by_email, vendor_query; simpl;
        by rewrite !andb_true_r).
  destruct (matches (by_email email) d); [done|]. apply IH.
Qed.

(** X8. A vendor whose role was changed is out of reach of the fraud cascade:
    when one user has the email, after its role is set to [user] or [admin]
    the cascade answers 404 and rejects no ticket. *)
Theorem demoted_vendor_not_fraud email body role now now' st :
  body !! "role" = Some (VStr role) →
  role ∈ ["user"; "admin"] →
  countDocuments (by_email email) (users st) = 1%nat →
  markVendorFraudulent email now' (snd (updateRole email body now st))
  = (Resp 404 "Vendor not found", snd (updateRole email body now st)).
Proof.
  intros Hb Hr Hone.
  destruct (findOne (by_email email) (users st)) as [u|] eqn:Hf;
    [|apply findOne_none_count in Hf; congruence].
  rewrite updateRole_cases, Hb, Hf. cbn [includes].
  rewrite bool_decide_eq_true_2
    by (repeat (apply elem_of_cons in Hr as [->|Hr]); [compute_done..|];
        by apply elem_of_nil in Hr).
  cbn [negb snd]. rewrite markVendorFraudulent_cases. cbn [put users].
  destruct (findOne_split _ _ _ Hf) as (l1 & l2 & Hc & Hl1).
  pose proof (findOne_matches _ _ _ Hf) as Hm.
  rewrite Hc in Hone |- *. rewrite countDocuments_app in Hone.
  unfold countDocuments at 2 in Hone. cbn [List.filter] in Hone.
  rewrite Hm in Hone. cbn [length] in Hone.
  fold (countDocuments (by_email email) l2) in Hone.
  assert (Hl2 : findOne (by_email email) l2 = None)
    by (apply findOne_none_count; lia).
  rewrite (updateOne_split _ (USet (role_fields (Some (VStr role)) now))
             _ _ _ _ Hl1 Hm eq_refl).
  cbn [snd].
  rewrite findOne_app, (vendor_query_by_email _ _ Hl1).
  unfold findOne at 1. cbn [List.find].
  assert (Hno : matches (vendor_query email)
                  (role_fields (Some (VStr role)) now ∪ u) = false).
  { unfold vendor_query, matches. simpl. rewrite andb_true_r.
    apply andb_false_iff. right. unfold field_matches. simpl.
    rewrite (lookup_union_Some_l _ _ _ (VStr role))
      by (unfold role_fields, obj; simpl; by simplify_map_eq).
    apply bool_decide_eq_false_2. intros [= ->].
    repeat (apply elem_of_cons in Hr as [Hr|Hr]); try done.
    by apply elem_of_nil in Hr. }
  rewrite Hno. fold (findOne (vendor_query email) l2).
  by rewrite (vendor_query_by_email _ _ Hl2).
Qed.

End UsersFacts.

(** ** Deletion, and the slots under every request *)

Section TicketsFacts.

Context {rt : Runtime}.

Lemma by_id_matches oid (d : doc) :
  matches (by_id oid) d = true ↔ d !! "_id" = Some (VId oid).
Proof.
  unfold by_id, matches. simpl. rewrite andb_true_r.
  rewrite field_matches_eq by done. apply bool_decide_eq_true.
Qed.

(** A ticket counts as a slot exactly when it is flagged [true] and
    approved. *)
Lemma advertised_query_matches (d : doc) :
  matches advertised_query d = true
  ↔ d !! "isAdvertised" = Some (VBool true)
    ∧ d !! "verificationStatus" = Some (VStr "approved").
Proof.
  unfold advertised_query, matches. simpl. rewrite andb_true_r.
  rewrite !field_matches_eq by done.
  rewrite andb_true_iff, !bool_decide_eq_true. done.
Qed.

Lemma advertised_listing_query (d : doc) :
  matches advertised_listing d = matches advertised_query d.
Proof.
  unfold advertised_listing, advertised_query, matches. simpl.
  rewrite !andb_true_r. apply andb_comm.
Qed.

(** X9. The deletion of a ticket removes the first ticket with that id and
    keeps the others, in order; the bookings made on it are left in
    place. *)
Theorem deleteTicket_removes_one id oid t st :
  ObjectId_parse id = Some oid →
  findOne (by_id oid) (tickets st) = Some t →
  fst (deleteTicket id st) = Resp 200 "Ticket deleted successfully"
  ∧ (∃ l1 l2,
       tickets st = l1 ++ t :: l2
       ∧ tickets (snd (deleteTicket id st)) = l1 ++ l2
       ∧ findOne (by_id oid) l1 = None)
  ∧ bookings (snd (deleteTicket id st)) = bookings st.
Proof.
  intros Hid Hf. rewrite deleteTicket_cases, Hid, Hf.
  split; [done|]. split; [|done].
  destruct (findOne_split _ _ _ Hf) as (l1 & l2 & Hc & Hl1).
  exists l1, l2. split; [done|]. split; [|done].
  cbn [snd put tickets].
  by rewrite Hc, (deleteOne_split _ _ _ _ Hl1 (findOne_matches _ _ _ Hf)).
Qed.

(** The only ticket with an id is gone after its deletion. *)
Lemma deleteTicket_gone id oid st :
  ObjectId_parse id = Some oid →
  countDocuments (by_id oid) (tickets st) = 1%nat →
  findOne (by_id oid) (tickets (snd (deleteTicket id st))) = None
  ∧ bookings (snd (deleteTicket id st)) = bookings st.
Proof.
  intros Hid Hone.
  destruct (findOne (by_id oid) (tickets st)) as [t|] eqn:Hf;
    [|apply findOne_none_count in Hf; congruence].
  rewrite deleteTicket_cases, Hid, Hf. cbn [snd put tickets bookings].
  split; [|done].
  destruct (findOne_split _ _ _ Hf) as (l1 & l2 & Hc & Hl1).
  pose proof (findOne_matches _ _ _ Hf) as Hm.
  rewrite Hc in Hone |- *. rewrite countDocuments_app in Hone.
  unfold countDocuments at 2 in Hone. cbn [List.filter] in Hone.
  rewrite Hm in Hone. cbn [length] in Hone.
  fold (countDocuments (by_id oid) l2) in Hone.
  rewrite (deleteOne_split _ _ _ _ Hl1 Hm). cbn [snd].
  rewrite findOne_app, Hl1. apply findOne_none_count. lia.
Qed.

(** X10. The deletion of a ticket does not look at its bookings: a booking made
    on a ticket that was deleted is still paid with answer 200, and no
    ticket is touched. *)
Theorem deleted_ticket_still_paid tid toid bid boid b body now gen st :
  ObjectId_parse tid = Some toid →
  countDocuments (by_id toid) (tickets st) = 1%nat →
  ObjectId_parse bid = Some boid →
  findOne (by_id boid) (bookings st) = Some b →
  b !! "ticketId" = Some (VStr tid) →
  fst (markPaid bid body now gen (snd (deleteTicket tid st)))
  = Resp 200 "Payment recorded successfully"
  ∧ field (bookings (snd (markPaid bid body now gen
                            (snd (deleteTicket tid st))))) boid "status"
    = Some (VStr "paid")
  ∧ tickets (snd (markPaid bid body now gen (snd (deleteTicket tid st))))
    = tickets (snd (deleteTicket tid st)).
Proof.
  intros Ht Hone Hb Hf Href.
  destruct (deleteTicket_gone tid toid st Ht Hone) as [Hgone Hbk].
  assert (Hf' : findOne (by_id boid) (bookings (snd (deleteTicket tid st)))
                = Some b) by (by rewrite Hbk).
  destruct (markPaid_booking bid boid b body now gen _ Hb Hf') as [_ Hpaid].
  split; [|split].
  - rewrite markPaid_cases, Hb, Hf'. cbn zeta. rewrite Href.
    cbn [new_ObjectId]. rewrite Ht.
    by rewrite (updateOne_not_found _ _ _ Hgone).
  - unfold field. rewrite Hpaid. simpl.
    apply lookup_union_Some_l, paid_fields_status.
  - rewrite markPaid_cases, Hb, Hf'. cbn zeta. rewrite Href.
    cbn [new_ObjectId]. rewrite Ht.
    by rewrite (updateOne_not_found _ _ _ Hgone).
Qed.

(** The slots held after a request that no write of which turns a ticket
    into a slot. *)
Lemma effect_count req now (c c' : list doc) :
  (∀ q u d d',
     ticket_write req now q u → apply_update u d = Some d' →
     matches advertised_query d' = true → matches advertised_query d = true) →
  tickets_effect req now c c' →
  (countDocuments advertised_query c' ≤ countDocuments advertised_query c)%nat.
Proof.
  intros Hw [|ticketData gen _|q u Hq|q u Hq].
  - done.
  - rewrite countDocuments_app. unfold countDocuments at 2.
    cbn [List.filter].
    destruct (matches advertised_query _) eqn:E; [|simpl; lia].
    apply advertised_query_matches in E as [E _].
    rewrite with_id_other, newTicket_flag in E; done.
  - apply updateOne_count_le. eauto.
  - apply updateMany_count_le. eauto.
Qed.

Lemma advert_fields_flag v now :
  advert_fields v now !! "isAdvertised" = Some (bson v).
Proof. unfold advert_fields, obj. simpl. by simplify_map_eq. Qed.


(** X12. Apart from the verification, no request brings the number of slots
    held above six, or above what it was. *)
Theorem slots_bounded_except_verify w now st :
  is_verify w = false →
  (slots_held (snd (serve w now st)) ≤ slots_held st `max` 6)%nat.
Proof.
  intros Hw.
  assert (Hcore : ∀ req,
    (∀ q u d d',
       ticket_write req now q u → apply_update u d = Some d' →
       matches advertised_query d' = true →
       matches advertised_query d = true) →
    (slots_held (snd (handle req now st)) ≤ slots_held st `max` 6)%nat).
  { intros req Hreq. unfold slots_held.
    pose proof (effect_count req now _ _ Hreq (handle_tickets req now st)).
    lia. }
  destruct w as [req| | |]; cbn [serve].
  - destruct req; try discriminate Hw; try (apply Hcore; by intros ????[]).
    + apply Hcore. intros q u d d' [_ ->] [= <-] Hm.
      by rewrite rejected_not_counted in Hm.
    + apply Hcore. intros q u d d' [_ ->] [= <-] Hm.
      rewrite matches_set_other in Hm; [done|].
      repeat constructor; simpl; apply strip_guarded; compute_done.
    + unfold handle. rewrite advertise_cases.
      destruct (ObjectId_parse id) as [oid|]; [|cbn [snd]; lia].
      destruct (truthy (body !! "isAdvertised")) eqn:Et; cbn [andb].
      * destruct (6 <=? slots_held st)%nat eqn:E6; [cbn [snd]; lia|].
        apply Nat.leb_gt in E6.
        destruct (findOne _ _); [|cbn [snd]; lia].
        cbn [snd put]. unfold slots_held at 1. cbn [tickets].
        etrans; [apply updateOne_count|]. fold (slots_held st). lia.
      * destruct (findOne _ _); [|cbn [snd]; lia].
        cbn [snd put]. unfold slots_held at 1. cbn [tickets].
        etrans; [apply updateOne_count_le|fold (slots_held st); lia].
        intros d d' [= <-] Hm.
        apply advertised_query_matches in Hm as [Hm _].
        rewrite (lookup_union_Some_l _ _ _ _ (advert_fields_flag _ _)) in Hm.
        destruct (body !! "isAdvertised") as [[]|]; simpl in *; congruence.
    + apply Hcore. intros q u d d' (_ & n & ->) Hu Hm.
      simpl in Hu. destruct (d !! "quantity") as [[]|]; try done;
        injection Hu as <-;
        rewrite matches_insert_other in Hm; try done; by repeat constructor.
  - by_cases. repeat case_match; cbn [snd put]; unfold slots_held;
      cbn [tickets]; lia.
  - by_cases. repeat case_match; cbn [snd put]; unfold slots_held;
      cbn [tickets]; lia.
  - rewrite deleteTicket_cases.
    destruct (ObjectId_parse id) as [oid|]; [|cbn [snd]; lia].
    destruct (findOne _ _) as [t|] eqn:Hf; [|cbn [snd]; lia].
    destruct (findOne_split _ _ _ Hf) as (l1 & l2 & Hc & Hl1).
    cbn [snd put]. unfold slots_held. cbn [tickets].
    rewrite Hc, (deleteOne_split _ _ _ _ Hl1 (findOne_matches _ _ _ Hf)).
    cbn [snd]. rewrite !countDocuments_app.
    unfold countDocuments at 4. cbn [List.filter].
    destruct (matches advertised_query t); cbn [length];
      fold (countDocuments advertised_query l2); lia.
Qed.

(** X13. The verification does not count the slots: approving a ticket that is
    flagged and not approved takes a slot, however many are held. *)
Theorem approval_skips_pool id oid t body now st :
  ObjectId_parse id = Some oid →
  findOne (by_id oid) (tickets st) = Some t →
  t !! "isAdvertised" = Some (VBool true) →
  t !! "verificationStatus" ≠ Some (VStr "approved") →
  body !! "verificationStatus" = Some (VStr "approved") →
  fst (verifyTicket id body now st) = Resp 200 "Ticket approved successfully"
  ∧ slots_held (snd (verifyTicket id body now st)) = S (slots_held st).
Proof.
  intros Hid Hf Hflag Hst Hb.
  rewrite verifyTicket_cases, Hid, Hb, Hf. cbn [includes].
  rewrite bool_decide_eq_true_2 by compute_done.
  cbn [negb fst snd put verified_message]. split; [done|].
  unfold slots_held. cbn [tickets].
  pose proof (updateOne_count_exact advertised_query (by_id oid)
                (USet (verified_fields (Some (VStr "approved")) now))
                _ t _ Hf eq_refl) as Hc.
  assert (H0 : matches advertised_query t = false).
  { apply not_true_is_false. intros Hm.
    by apply advertised_query_matches in Hm as [_ Hm]. }
  assert (H1 : matches advertised_query
                 (verified_fields (Some (VStr "approved")) now ∪ t) = true).
  { apply advertised_query_matches. split.
    - by rewrite lookup_union_r by (by apply verified_fields_other).
    - by apply lookup_union_Some_l, verified_fields_status. }
  rewrite H0, H1 in Hc. lia.
Qed.

End TicketsFacts.

(** ** What is listed, and what is read back *)

Section Listing.

Context {rt : Runtime}.

(** X14. The advertised tickets shown are at most six, each of them approved
    and flagged; when at most six slots are held, every ticket that holds
    one is shown. *)
Theorem getAdvertised_lists st :
  (length (getAdvertised st) ≤ 6)%nat
  ∧ Forall (fun t : doc =>
              t !! "verificationStatus" = Some (VStr "approved")
              ∧ t !! "isAdvertised" = Some (VBool true))
      (getAdvertised st)
  ∧ ((slots_held st ≤ 6)%nat →
     length (getAdvertised st) = slots_held st
     ∧ ∀ t : doc,
         t ∈ tickets st →
         t !! "verificationStatus" = Some (VStr "approved") →
         t !! "isAdvertised" = Some (VBool true) →
         t ∈ getAdvertised st).
Proof.
  unfold getAdvertised, limit, find. fold advertised_listing.
  assert (Hlen : length (List.filter (matches advertised_listing) (tickets st))
                 = slots_held st).
  { unfold slots_held, countDocuments. f_equal.
    apply List.filter_ext, advertised_listing_query. }
  split; [|split].
  - rewrite length_take. lia.
  - apply Forall_take, Forall_forall. intros t Ht.
    apply list_elem_of_In, List.filter_In in Ht as [_ Ht].
    rewrite advertised_listing_query in Ht.
    by apply advertised_query_matches in Ht as [? ?].
  - intros Hle. rewrite take_ge by lia. split; [done|].
    intros t Ht Hs Hf. apply list_elem_of_In, List.filter_In.
    split; [by apply list_elem_of_In|].
    rewrite advertised_listing_query. by apply advertised_query_matches.
Qed.

(** X15. After a fraud cascade that found the vendor, none of the vendor's
    tickets is among the advertised tickets shown, flagged or not. *)
Theorem fraud_hides_tickets email now st :
  fst (markVendorFraudulent email now st)
  = Resp 200 "Vendor marked as fraud and all tickets hidden" →
  Forall (fun t : doc => t !! "vendorEmail" ≠ Some (VStr email))
    (getAdvertised (snd (markVendorFraudulent email now st))).
Proof.
  rewrite markVendorFraudulent_cases.
  destruct (findOne _ (users st)); [|done]. intros _.
  unfold getAdvertised, limit, find. cbn [snd tickets].
  apply Forall_take, Forall_forall. intros t Ht.
  apply list_elem_of_In, List.filter_In in Ht as [Hin Ht].
  fold advertised_listing in Ht. rewrite advertised_listing_query in Ht.
  apply advertised_query_matches in Ht as [_ Hst].
  assert (Hall : Forall (fun t : doc =>
                           t !! "vendorEmail" = Some (VStr email) →
                           t !! "verificationStatus" = Some (VStr "rejected"))
                   (snd (updateMany (owned_by email) (USet rejected_fields)
                           (tickets st)))).
  { apply updateMany_set_Forall.
    - intros d _ _. by apply lookup_union_Some_l.
    - intros d Hd Hown. apply owned_by_matches in Hown. congruence. }
  rewrite Forall_forall in Hall. intros Hown.
  specialize (Hall t (proj2 (list_elem_of_In _ _) Hin) Hown). congruence.
Qed.

(** X16. A ticket that was created can be read back by its id: it holds the
    posted fields, but for the status, the flag, the time of creation and
    the id, which are the server's. *)
Theorem createTicket_then_getTicket id ticketData now gen st :
  ObjectId_parse id = Some gen →
  ticketData !! "_id" = None →
  findOne (by_id gen) (tickets st) = None →
  fst (createTicket ticketData now gen st)
  = Resp 201 "Ticket added successfully. Waiting for admin approval."
  ∧ ∃ t,
      getTicket id (snd (createTicket ticketData now gen st)) = Data t
      ∧ t !! "_id" = Some (VId gen)
      ∧ t !! "verificationStatus" = Some (VStr "pending")
      ∧ t !! "isAdvertised" = Some (VBool false)
      ∧ t !! "createdAt" = Some (VDate now)
      ∧ ∀ k,
          k ∉ ["_id"; "verificationStatus"; "isAdvertised"; "createdAt"] →
          t !! k = ticketData !! k.
Proof.
  intros Hid Hno Hfresh.
  assert (Hw : with_id gen (newTicket ticketData now)
               = <["_id" := VId gen]> (newTicket ticketData now)).
  { unfold with_id, newTicket. by rewrite !lookup_insert_ne, Hno by done. }
  rewrite createTicket_cases, Hw, lookup_insert_eq.
  rewrite (proj2 (has_id_by_id gen (tickets st)) Hfresh).
  split; [done|]. unfold getTicket. rewrite Hid. cbn [snd put tickets].
  fold (by_id gen). rewrite findOne_app, Hfresh.
  unfold findOne. cbn [List.find].
  rewrite (proj2 (by_id_matches gen _)) by apply lookup_insert_eq.
  eexists. split; [done|]. unfold newTicket.
  repeat split; try by simplify_map_eq.
  intros k Hk. rewrite !lookup_insert_ne; [done|intros <-; apply Hk; compute_done..].
Qed.

(** X17. Granting a slot to an approved ticket that has none takes one slot, and
    revoking it gives the slot back. *)
Theorem grant_then_revoke id oid t now now' st :
  ObjectId_parse id = Some oid →
  findOne (approved_by_id oid) (tickets st) = Some t →
  t !! "isAdvertised" ≠ Some (VBool true) →
  (slots_held st < 6)%nat →
  fst (grantSlot id now st) = Resp 200 "Ticket advertised successfully"
  ∧ slots_held (snd (grantSlot id now st)) = S (slots_held st)
  ∧ fst (revokeSlot id now' (snd (grantSlot id now st)))
    = Resp 200 "Ticket unadvertised successfully"
  ∧ slots_held (snd (revokeSlot id now' (snd (grantSlot id now st))))
    = slots_held st.
Proof.
  intros Hid Hf Hflag Hlt.
  assert (Happ : t !! "verificationStatus" = Some (VStr "approved")).
  { pose proof (findOne_matches _ _ _ Hf) as Hm.
    unfold approved_by_id, matches in Hm. simpl in Hm.
    rewrite andb_true_r in Hm. apply andb_true_iff in Hm as [_ Hm].
    rewrite field_matches_eq in Hm by done.
    by apply bool_decide_eq_true in Hm. }
  assert (Hg : grantSlot id now st
               = (Resp 200 "Ticket advertised successfully",
                  put Tickets
                    (snd (updateOne (approved_by_id oid)
                            (USet (advert_fields (Some (VBool true)) now))
                            (tickets st))) st)).
  { unfold grantSlot. rewrite advertise_cases, grant_body, Hid, Hf.
    cbn [truthy andb].
    by rewrite (proj2 (Nat.leb_gt _ _) Hlt). }
  set (t1 := advert_fields (Some (VBool true)) now ∪ t).
  assert (Hf1 : findOne (approved_by_id oid) (tickets (snd (grantSlot id now st)))
                = Some t1).
  { rewrite Hg. cbn [snd put tickets].
    apply findOne_after_set; [repeat constructor|done]. }
  assert (H0 : matches advertised_query t = false).
  { apply not_true_is_false. intros Hm.
    by apply advertised_query_matches in Hm as [Hm _]. }
  assert (H1 : matches advertised_query t1 = true).
  { apply advertised_query_matches. unfold t1. split.
    - by apply lookup_union_Some_l.
    - by rewrite lookup_union_r by (by apply advert_fields_other). }
  assert (H2 : matches advertised_query
                 (advert_fields (Some (VBool false)) now' ∪ t1) = false).
  { apply not_true_is_false. intros Hm.
    apply advertised_query_matches in Hm as [Hm _].
    by rewrite (lookup_union_Some_l _ _ _ _ (advert_fields_flag _ _)) in Hm. }
  assert (Hs1 : slots_held (snd (grantSlot id now st)) = S (slots_held st)).
  { rewrite Hg. unfold slots_held. cbn [snd put tickets].
    pose proof (updateOne_count_exact advertised_query (approved_by_id oid)
                  (USet (advert_fields (Some (VBool true)) now))
                  _ t _ Hf eq_refl) as Hc.
    fold t1 in Hc. rewrite H0, H1 in Hc. lia. }
  split; [by rewrite Hg|]. split; [done|].
  rewrite revokeSlot_cases, Hid, Hf1. split; [done|].
  unfold slots_held in *. cbn [snd put tickets].
  pose proof (updateOne_count_exact advertised_query (approved_by_id oid)
                (USet (advert_fields (Some (VBool false)) now'))
                _ t1 _ Hf1 eq_refl) as Hc.
  rewrite H1, H2 in Hc. lia.
Qed.

End Listing.

(** ** Bookings and transactions *)

Section BookingsFacts.

Context {rt : Runtime}.

Lemma paid_fields_other v now k :
  k ∉ progress_fields → paid_fields v now !! k = None.
Proof.
  intros Hk. unfold paid_fields, obj. simpl.
  rewrite !lookup_insert_ne; [done|intros <-; apply Hk; compute_done..].
Qed.

Lemma accepted_fields_other now k :
  k ∉ progress_fields → accepted_fields now !! k = None.
Proof.
  intros Hk. unfold accepted_fields, obj. simpl.
  rewrite !lookup_insert_ne; [done|intros <-; apply Hk; compute_done..].
Qed.

Lemma declined_fields_other now k :
  k ∉ progress_fields → declined_fields now !! k = None.
Proof.
  intros Hk. unfold declined_fields, obj. simpl.
  rewrite !lookup_insert_ne; [done|intros <-; apply Hk; compute_done..].
Qed.

(** One payment, on a booking whose ticket exists. *)
Lemma markPaid_decrement bid boid b tid toid t r q body now gen st :
  ObjectId_parse bid = Some boid →
  findOne (by_id boid) (bookings st) = Some b →
  b !! "ticketId" = Some (VStr tid) →
  ObjectId_parse tid = Some toid →
  findOne (by_id toid) (tickets st) = Some t →
  t !! "quantity" = Some (VNum (Int r)) →
  ToNumber (b !! "bookingQuantity") = Int q →
  fst (markPaid bid body now gen st) = Resp 200 "Payment recorded successfully"
  ∧ findOne (by_id boid) (bookings (snd (markPaid bid body now gen st)))
    = Some (paid_fields (body !! "transactionId") now ∪ b)
  ∧ findOne (by_id toid) (tickets (snd (markPaid bid body now gen st)))
    = Some (<["quantity" := VNum (Int (r - q))]> t).
Proof.
  intros Hb Hf Href Ht Hft Hr Hq.
  destruct (markPaid_booking bid boid b body now gen st Hb Hf) as [_ Hpaid].
  split; [|split; [done|]];
    rewrite markPaid_cases, Hb, Hf; cbn zeta; rewrite Href;
    cbn [new_ObjectId]; rewrite Ht, Hq;
    destruct (updateOne_inc toid (neg (Int q)) _ _ _ Hft Hr) as [H1 H2];
    destruct (updateOne (by_id toid) _ (tickets st)) as [n l];
    simpl in H1, H2; subst n; cbn [fst snd put tickets]; [done|].
  rewrite H2. simpl. by rewrite Z.add_opp_r.
Qed.

(** X18. [markPaid] is not idempotent: paying a booking a second time is
    answered with 200 again and takes the quantity off the ticket again. *)
Theorem markPaid_twice bid boid b tid toid t r q body body' now now' gen gen'
    st :
  ObjectId_parse bid = Some boid →
  findOne (by_id boid) (bookings st) = Some b →
  b !! "ticketId" = Some (VStr tid) →
  ObjectId_parse tid = Some toid →
  findOne (by_id toid) (tickets st) = Some t →
  t !! "quantity" = Some (VNum (Int r)) →
  ToNumber (b !! "bookingQuantity") = Int q →
  fst (markPaid bid body' now' gen' (snd (markPaid bid body now gen st)))
  = Resp 200 "Payment recorded successfully"
  ∧ field (tickets (snd (markPaid bid body' now' gen'
                           (snd (markPaid bid body now gen st))))) toid
      "quantity"
    = Some (VNum (Int (r - 2 * q))).
Proof.
  intros Hb Hf Href Ht Hft Hr Hq.
  destruct (markPaid_decrement bid boid b tid toid t r q body now gen st)
    as (_ & Hf1 & Hft1); try done.
  destruct (markPaid_decrement bid boid
              (paid_fields (body !! "transactionId") now ∪ b) tid toid
              (<["quantity" := VNum (Int (r - q))]> t) (r - q) q body' now'
              gen' (snd (markPaid bid body now gen st)) Hb Hf1)
    as (H200 & _ & Hft2); try done.
  - rewrite lookup_union_r; [done|]. apply paid_fields_other. compute_done.
  - by rewrite lookup_insert_eq.
  - rewrite lookup_union_r; [done|]. apply paid_fields_other. compute_done.
  - split; [done|]. unfold field. rewrite Hft2. simpl.
    rewrite lookup_insert_eq. do 3 f_equal. lia.
Qed.

(** X19. No request rewrites the terms of a stored booking: its ticket, its
    quantity, its price, its user and its vendor stay as they were posted;
    only the status, the transaction reference and the times of the
    transitions are written. *)
Theorem booking_terms_fixed w now st :
  Forall2 (fun b b' : doc => ∀ k, k ∉ progress_fields → b' !! k = b !! k)
    (bookings st)
    (take (length (bookings st)) (bookings (snd (serve w now st)))).
Proof.
  assert (Hsame : Forall2 (fun b b' : doc =>
                             ∀ k, k ∉ progress_fields → b' !! k = b !! k)
                    (bookings st) (take (length (bookings st)) (bookings st))).
  { rewrite firstn_all. by apply Forall2_diag. }
  assert (Hset : ∀ q (s : doc),
    (∀ k, k ∉ progress_fields → s !! k = None) →
    Forall2 (fun b b' : doc => ∀ k, k ∉ progress_fields → b' !! k = b !! k)
      (bookings st)
      (take (length (bookings st)) (snd (updateOne q (USet s) (bookings st))))).
  { intros q s Hs.
    assert (H : Forall2 (fun b b' : doc =>
                           ∀ k, k ∉ progress_fields → b' !! k = b !! k)
                  (bookings st) (snd (updateOne q (USet s) (bookings st)))).
    { apply updateOne_Forall2; [done|].
      intros d d' _ [= <-] k Hk. apply lookup_union_r. by apply Hs. }
    by rewrite (Forall2_length _ _ _ H), firstn_all. }
  destruct w as [[]| | |]; by_cases; repeat case_match;
    cbn [snd put bookings]; try done.
  - rewrite take_app_length. by apply Forall2_diag.
  - apply Hset. intros k. apply accepted_fields_other.
  - apply Hset. intros k. apply declined_fields_other.
  - apply Hset. intros k. apply paid_fields_other.
  - apply Hset. intros k. apply paid_fields_other.
  - apply Hset. intros k. apply paid_fields_other.
Qed.

Lemma with_id_fresh gen (d : doc) :
  d !! "_id" = None → with_id gen d = <["_id" := VId gen]> d.
Proof. intros H. unfold with_id. by rewrite H. Qed.

(** X20. A booking is stored as it is posted: the status is the client's, and no
    ticket is read or reserved. *)
Theorem createBooking_verbatim bookingData now gen st :
  bookingData !! "_id" = None →
  findOne (by_id gen) (bookings st) = None →
  fst (createBooking bookingData now gen st)
  = Resp 201 "Booking created successfully"
  ∧ tickets (snd (createBooking bookingData now gen st)) = tickets st
  ∧ ∃ b,
      bookings (snd (createBooking bookingData now gen st))
      = bookings st ++ [b]
      ∧ b !! "_id" = Some (VId gen)
      ∧ b !! "status" = bookingData !! "status"
      ∧ ∀ k, k ≠ "_id" → k ≠ "createdAt" → b !! k = bookingData !! k.
Proof.
  intros Hno Hfresh.
  rewrite createBooking_cases, with_id_fresh
    by (by rewrite lookup_insert_ne).
  rewrite lookup_insert_eq, (proj2 (has_id_by_id gen (bookings st)) Hfresh).
  split; [done|]. split; [done|]. cbn [snd put bookings].
  eexists. split; [done|].
  split; [by rewrite lookup_insert_eq|].
  split; [by rewrite !lookup_insert_ne|].
  intros k H1 H2. by rewrite !lookup_insert_ne.
Qed.

(** X21. Nothing ties a transaction to a booking: the same payment posted twice
    is recorded twice. *)
Theorem saveTransaction_twice transactionData now now' gen gen' st :
  transactionData !! "_id" = None →
  gen ≠ gen' →
  findOne (by_id gen) (transactions st) = None →
  findOne (by_id gen') (transactions st) = None →
  fst (saveTransaction transactionData now gen st)
  = Resp 201 "Transaction saved successfully"
  ∧ fst (saveTransaction transactionData now' gen'
           (snd (saveTransaction transactionData now gen st)))
    = Resp 201 "Transaction saved successfully"
  ∧ ∃ t1 t2,
      transactions (snd (saveTransaction transactionData now' gen'
                           (snd (saveTransaction transactionData now gen st))))
      = transactions st ++ [t1; t2]
      ∧ ∀ k, k ≠ "_id" → k ≠ "createdAt" →
             t1 !! k = transactionData !! k ∧ t2 !! k = transactionData !! k.
Proof.
  intros Hno Hne Hf Hf'.
  rewrite (saveTransaction_cases transactionData now gen st).
  rewrite with_id_fresh by (by rewrite lookup_insert_ne).
  rewrite lookup_insert_eq, (proj2 (has_id_by_id gen (transactions st)) Hf).
  cbn [fst snd]. split; [done|].
  rewrite saveTransaction_cases.
  rewrite with_id_fresh by (by rewrite lookup_insert_ne).
  rewrite lookup_insert_eq. cbn [put transactions].
  assert (Hf2 : findOne (by_id gen')
                  (transactions st
                   ++ [<["_id" := VId gen]>
                         (<["createdAt" := VDate now]> transactionData)])
                = None).
  { rewrite findOne_app, Hf'. unfold findOne. cbn [List.find].
    destruct (matches (by_id gen') _) eqn:E; [|done].
    apply by_id_matches in E. rewrite lookup_insert_eq in E. congruence. }
  rewrite (proj2 (has_id_by_id gen' _) Hf2). cbn [fst snd put transactions].
  split; [done|]. eexists _, _. split; [by rewrite <- app_assoc|].
  intros k H1 H2. by rewrite !lookup_insert_ne.
Qed.

End BookingsFacts.

(** ** The other routes on the example data *)

Section MoreExamples.

#[local] Existing Instance Hex.runtime.

Lemma saveUser_then_getUser_witness :
  (More.signup !! "email" = Some (VStr "rahim@nexticket.io")
   ∧ code (fst (saveUser More.signup 1000 300 More.office)) ≠ 500%nat)
  ∧ (∃ u,
       getUser "rahim@nexticket.io" (snd (saveUser More.signup 1000 300
                                            More.office)) = Data u
       ∧ u !! "email" = Some (VStr "rahim@nexticket.io")
       ∧ u !! "name" = Some (bson (More.signup !! "name"))
       ∧ u !! "photoURL" = Some (bson (More.signup !! "photoURL")))
  ∧ countDocuments (by_email "rahim@nexticket.io")
      (users (snd (saveUser More.signup 1000 300 More.office)))
    = (1 `max` countDocuments (by_email "rahim@nexticket.io")
                 (users More.office))%nat.
Proof.
  assert (He : More.signup !! "email" = Some (VStr "rahim@nexticket.io"))
    by reflexivity.
  assert (Hok : code (fst (saveUser More.signup 1000 300 More.office))
                ≠ 500%nat) by (vm_compute; discriminate).
  split; [by split|].
  exact (saveUser_then_getUser More.signup "rahim@nexticket.io" 1000 300
           More.office He Hok).
Defined.

(** The user who asked for the admin role is registered as a user. *)
Lemma signup_is_user :
  ∃ u,
    getUser "rahim@nexticket.io"
      (snd (saveUser More.signup 1000 300 More.office)) = Data u
    ∧ u !! "role" = Some (VStr "user")
    ∧ u !! "isFraud" = Some (VBool false).
Proof. eexists. by vm_compute. Qed.

Lemma roles_stay_valid_witness :
  valid_roles More.office
  ∧ valid_roles
      (snd (serve (UpdateRole "vendor@nexticket.io"
                     (obj [("role", VStr "admin")])) 1000 More.office)).
Proof.
  assert (H : valid_roles More.office).
  { repeat constructor.
    - exists "vendor". split; [compute_done|reflexivity].
    - exists "admin". split; [compute_done|reflexivity]. }
  split; [exact H|].
  exact (roles_stay_valid (rt := Hex.runtime)
           (UpdateRole "vendor@nexticket.io" (obj [("role", VStr "admin")]))
           1000 More.office H).
Defined.

Lemma collection_ownership_witness :
  writes_coll (Core (MarkPaid Ex.bookingId Ex.payment 99)) Transactions = false
  ∧ get Transactions
      (snd (serve (Core (MarkPaid Ex.bookingId Ex.payment 99)) 1000
              (Ex.shop "accepted")))
    = get Transactions (Ex.shop "accepted").
Proof.
  split; [reflexivity|].
  exact (collection_ownership (rt := Hex.runtime) (Core (MarkPaid Ex.bookingId Ex.payment 99))
           Transactions 1000 (Ex.shop "accepted") eq_refl).
Defined.

Lemma refusals_write_nothing_witness :
  code (fst (serve (Core (Advertise "000000000000000000000007"
                            (obj [("isAdvertised", VBool true)])))
               1000 Ex.full_house)) = 400%nat
  ∧ snd (serve (Core (Advertise "000000000000000000000007"
                        (obj [("isAdvertised", VBool true)])))
           1000 Ex.full_house) = Ex.full_house.
Proof.
  assert (H : code (fst (serve (Core (Advertise "000000000000000000000007"
                                        (obj [("isAdvertised", VBool true)])))
                           1000 Ex.full_house)) = 400%nat) by reflexivity.
  split; [exact H|].
  exact (refusals_write_nothing (rt := Hex.runtime) _ 1000 Ex.full_house (or_introl H)).
Defined.

Lemma malformed_id_refused_witness :
  (path_id (DeleteTicket "not-an-id") = Some ("not-an-id", "Invalid ticket ID")
   ∧ ObjectId_parse "not-an-id" = None)
  ∧ serve (DeleteTicket "not-an-id") 1000 (Ex.shop "paid")
    = (Resp 400 "Invalid ticket ID", Ex.shop "paid").
Proof.
  split; [by split|].
  exact (malformed_id_refused (rt := Hex.runtime) (DeleteTicket "not-an-id") "not-an-id"
           "Invalid ticket ID" 1000 (Ex.shop "paid") eq_refl eq_refl).
Defined.

Lemma updateRole_then_getUser_witness :
  (obj [("role", VStr "admin")] !! "role" = Some (VStr "admin")
   ∧ "admin" ∈ ["user"; "vendor"; "admin"]
   ∧ findOne (by_email "vendor@nexticket.io") (users More.office)
     = Some Ex.vendor)
  ∧ fst (updateRole "vendor@nexticket.io" (obj [("role", VStr "admin")]) 1000
           More.office)
    = Resp 200 ("User role updated to " +:+ "admin")
  ∧ ∃ u',
      getUser "vendor@nexticket.io"
        (snd (updateRole "vendor@nexticket.io" (obj [("role", VStr "admin")])
                1000 More.office)) = Data u'
      ∧ u' !! "role" = Some (VStr "admin")
      ∧ ∀ k, k ≠ "role" → k ≠ "updatedAt" → u' !! k = Ex.vendor !! k.
Proof.
  assert (Hr : "admin" ∈ ["user"; "vendor"; "admin"]) by compute_done.
  split; [by repeat split|].
  exact (updateRole_then_getUser "vendor@nexticket.io"
           (obj [("role", VStr "admin")]) "admin" Ex.vendor 1000 More.office
           eq_refl Hr eq_refl).
Defined.

Lemma demoted_vendor_not_fraud_witness :
  (obj [("role", VStr "user")] !! "role" = Some (VStr "user")
   ∧ "user" ∈ ["user"; "admin"]
   ∧ countDocuments (by_email "vendor@nexticket.io") (users More.office)
     = 1%nat)
  ∧ markVendorFraudulent "vendor@nexticket.io" 2000
      (snd (updateRole "vendor@nexticket.io" (obj [("role", VStr "user")])
              1000 More.office))
    = (Resp 404 "Vendor not found",
       snd (updateRole "vendor@nexticket.io" (obj [("role", VStr "user")])
              1000 More.office)).
Proof.
  assert (Hr : "user" ∈ ["user"; "admin"]) by compute_done.
  split; [by repeat split|].
  exact (demoted_vendor_not_fraud "vendor@nexticket.io"
           (obj [("role", VStr "user")]) "user" 1000 2000 More.office
           eq_refl Hr eq_refl).
Defined.

Lemma deleteTicket_removes_one_witness :
  (ObjectId_parse Ex.ticketId = Some 1%N
   ∧ findOne (by_id 1) (tickets Ex.full_house) = Some (Ex.promoted 1 true))
  ∧ fst (deleteTicket Ex.ticketId Ex.full_house)
    = Resp 200 "Ticket deleted successfully"
  ∧ length (tickets (snd (deleteTicket Ex.ticketId Ex.full_house))) = 6%nat.
Proof.
  split; [by split|].
  destruct (deleteTicket_removes_one (rt := Hex.runtime) Ex.ticketId 1 (Ex.promoted 1 true)
              Ex.full_house eq_refl eq_refl) as (H1 & _ & _).
  split; [exact H1 | reflexivity].
Defined.

Lemma deleted_ticket_still_paid_witness :
  (ObjectId_parse Ex.ticketId = Some 1%N
   ∧ countDocuments (by_id 1) (tickets (Ex.shop "accepted")) = 1%nat
   ∧ ObjectId_parse Ex.bookingId = Some 10%N
   ∧ findOne (by_id 10) (bookings (Ex.shop "accepted"))
     = Some (Ex.booking "accepted")
   ∧ Ex.booking "accepted" !! "ticketId" = Some (VStr Ex.ticketId))
  ∧ fst (markPaid Ex.bookingId Ex.payment 1000 99
           (snd (deleteTicket Ex.ticketId (Ex.shop "accepted"))))
    = Resp 200 "Payment recorded successfully"
  ∧ field (bookings (snd (markPaid Ex.bookingId Ex.payment 1000 99
                            (snd (deleteTicket Ex.ticketId
                                    (Ex.shop "accepted")))))) 10 "status"
    = Some (VStr "paid")
  ∧ tickets (snd (markPaid Ex.bookingId Ex.payment 1000 99
                    (snd (deleteTicket Ex.ticketId (Ex.shop "accepted")))))
    = tickets (snd (deleteTicket Ex.ticketId (Ex.shop "accepted"))).
Proof.
  split; [by repeat split|].
  exact (deleted_ticket_still_paid (rt := Hex.runtime) Ex.ticketId 1 Ex.bookingId 10
           (Ex.booking "accepted") Ex.payment 1000 99 (Ex.shop "accepted")
           eq_refl eq_refl eq_refl eq_refl eq_refl).
Defined.


(** Five slots held: the flag set to a string is stored and takes none. *)
Lemma advertise_string_flag :
  fst (advertise "000000000000000000000006"
         (obj [("isAdvertised", VStr "yes")]) 1000 Ex.five_slots)
  = Resp 200 "Ticket advertised successfully"
  ∧ field (tickets (snd (advertise "000000000000000000000006"
                           (obj [("isAdvertised", VStr "yes")]) 1000
                           Ex.five_slots))) 6 "isAdvertised"
    = Some (VStr "yes")
  ∧ slots_held (snd (advertise "000000000000000000000006"
                       (obj [("isAdvertised", VStr "yes")]) 1000
                       Ex.five_slots)) = 5%nat.
Proof. by vm_compute. Qed.

Lemma slots_bounded_except_verify_witness :
  is_verify (DeleteTicket Ex.ticketId) = false
  ∧ (slots_held (snd (serve (DeleteTicket Ex.ticketId) 1000 Ex.full_house))
     ≤ slots_held Ex.full_house `max` 6)%nat.
Proof.
  split; [reflexivity|].
  exact (slots_bounded_except_verify (rt := Hex.runtime) (DeleteTicket Ex.ticketId) 1000
           Ex.full_house eq_refl).
Defined.

Lemma approval_skips_pool_witness :
  (ObjectId_parse "000000000000000000000008" = Some 8%N
   ∧ findOne (by_id 8) (tickets More.crowded) = Some (More.stale 8)
   ∧ More.stale 8 !! "isAdvertised" = Some (VBool true)
   ∧ More.stale 8 !! "verificationStatus" ≠ Some (VStr "approved")
   ∧ obj [("verificationStatus", VStr "approved")] !! "verificationStatus"
     = Some (VStr "approved")
   ∧ slots_held More.crowded = 6%nat)
  ∧ fst (verifyTicket "000000000000000000000008"
           (obj [("verificationStatus", VStr "approved")]) 1000 More.crowded)
    = Resp 200 "Ticket approved successfully"
  ∧ slots_held (snd (verifyTicket "000000000000000000000008"
                       (obj [("verificationStatus", VStr "approved")]) 1000
                       More.crowded)) = S (slots_held More.crowded).
Proof.
  assert (Hs : More.stale 8 !! "verificationStatus" ≠ Some (VStr "approved"))
    by (vm_compute; discriminate).
  split; [by repeat split|].
  exact (approval_skips_pool (rt := Hex.runtime) "000000000000000000000008" 8 (More.stale 8)
           (obj [("verificationStatus", VStr "approved")]) 1000 More.crowded
           eq_refl eq_refl eq_refl Hs eq_refl).
Defined.

Lemma getAdvertised_lists_witness :
  (slots_held Ex.five_slots ≤ 6)%nat
  ∧ length (getAdvertised Ex.five_slots) = slots_held Ex.five_slots
  ∧ Ex.promoted 5 true ∈ getAdvertised Ex.five_slots.
Proof.
  assert (H : (slots_held Ex.five_slots ≤ 6)%nat) by (vm_compute; lia).
  destruct (getAdvertised_lists Ex.five_slots) as (_ & _ & H3).
  destruct (H3 H) as [Hlen Hin].
  split; [exact H|]. split; [exact Hlen|].
  apply Hin; [|reflexivity..].
  apply list_elem_of_In. simpl. tauto.
Defined.

Lemma fraud_hides_tickets_witness :
  fst (markVendorFraudulent "vendor@nexticket.io" 1000 Ex.five_slots)
  = Resp 200 "Vendor marked as fraud and all tickets hidden"
  ∧ Forall (fun t : doc =>
              t !! "vendorEmail" ≠ Some (VStr "vendor@nexticket.io"))
      (getAdvertised
         (snd (markVendorFraudulent "vendor@nexticket.io" 1000 Ex.five_slots))).
Proof.
  split; [reflexivity|].
  exact (fraud_hides_tickets "vendor@nexticket.io" 1000 Ex.five_slots eq_refl).
Defined.

Lemma createTicket_then_getTicket_witness :
  (ObjectId_parse "000000000000000000000002" = Some 2%N
   ∧ More.offer !! "_id" = None
   ∧ findOne (by_id 2) (tickets (Ex.shop "pending")) = None)
  ∧ fst (createTicket More.offer 1000 2 (Ex.shop "pending"))
    = Resp 201 "Ticket added successfully. Waiting for admin approval."
  ∧ ∃ t,
      getTicket "000000000000000000000002"
        (snd (createTicket More.offer 1000 2 (Ex.shop "pending"))) = Data t
      ∧ t !! "_id" = Some (VId 2)
      ∧ t !! "verificationStatus" = Some (VStr "pending")
      ∧ t !! "isAdvertised" = Some (VBool false)
      ∧ t !! "createdAt" = Some (VDate 1000)
      ∧ ∀ k,
          k ∉ ["_id"; "verificationStatus"; "isAdvertised"; "createdAt"] →
          t !! k = More.offer !! k.
Proof.
  split; [by repeat split|].
  exact (createTicket_then_getTicket (rt := Hex.runtime) "000000000000000000000002" More.offer
           1000 2 (Ex.shop "pending") eq_refl eq_refl eq_refl).
Defined.

Lemma grant_then_revoke_witness :
  (ObjectId_parse "000000000000000000000006" = Some 6%N
   ∧ findOne (approved_by_id 6) (tickets Ex.five_slots)
     = Some (Ex.promoted 6 false)
   ∧ Ex.promoted 6 false !! "isAdvertised" ≠ Some (VBool true)
   ∧ (slots_held Ex.five_slots < 6)%nat)
  ∧ fst (grantSlot "000000000000000000000006" 1000 Ex.five_slots)
    = Resp 200 "Ticket advertised successfully"
  ∧ slots_held (snd (grantSlot "000000000000000000000006" 1000 Ex.five_slots))
    = S (slots_held Ex.five_slots)
  ∧ fst (revokeSlot "000000000000000000000006" 2000
           (snd (grantSlot "000000000000000000000006" 1000 Ex.five_slots)))
    = Resp 200 "Ticket unadvertised successfully"
  ∧ slots_held
      (snd (revokeSlot "000000000000000000000006" 2000
              (snd (grantSlot "000000000000000000000006" 1000 Ex.five_slots))))
    = slots_held Ex.five_slots.
Proof.
  assert (Hf : Ex.promoted 6 false !! "isAdvertised" ≠ Some (VBool true))
    by (vm_compute; discriminate).
  assert (Hlt : (slots_held Ex.five_slots < 6)%nat) by (vm_compute; lia).
  split; [by repeat split|].
  exact (grant_then_revoke (rt := Hex.runtime) "000000000000000000000006" 6 (Ex.promoted 6 false)
           1000 2000 Ex.five_slots eq_refl eq_refl Hf Hlt).
Defined.

Lemma markPaid_twice_witness :
  (ObjectId_parse Ex.bookingId = Some 10%N
   ∧ findOne (by_id 10) (bookings (Ex.shop "accepted"))
     = Some (Ex.booking "accepted")
   ∧ Ex.booking "accepted" !! "ticketId" = Some (VStr Ex.ticketId)
   ∧ ObjectId_parse Ex.ticketId = Some 1%N
   ∧ findOne (by_id 1) (tickets (Ex.shop "accepted")) = Some Ex.ticket
   ∧ Ex.ticket !! "quantity" = Some (VNum (Int 1))
   ∧ ToNumber (Ex.booking "accepted" !! "bookingQuantity") = Int 3)
  ∧ fst (markPaid Ex.bookingId Ex.payment 2000 98
           (snd (markPaid Ex.bookingId Ex.payment 1000 99
                   (Ex.shop "accepted"))))
    = Resp 200 "Payment recorded successfully"
  ∧ field (tickets (snd (markPaid Ex.bookingId Ex.payment 2000 98
                           (snd (markPaid Ex.bookingId Ex.payment 1000 99
                                   (Ex.shop "accepted")))))) 1 "quantity"
    = Some (VNum (Int (1 - 2 * 3))).
Proof.
  split; [by repeat split|].
  exact (markPaid_twice (rt := Hex.runtime) Ex.bookingId 10 (Ex.booking "accepted") Ex.ticketId 1
           Ex.ticket 1 3 Ex.payment Ex.payment 1000 2000 99 98
           (Ex.shop "accepted") eq_refl eq_refl eq_refl eq_refl eq_refl
           eq_refl eq_refl).
Defined.

Lemma createBooking_verbatim_witness :
  (More.order !! "_id" = None
   ∧ findOne (by_id 11) (bookings (Ex.shop "accepted")) = None)
  ∧ fst (createBooking More.order 1000 11 (Ex.shop "accepted"))
    = Resp 201 "Booking created successfully"
  ∧ field (bookings (snd (createBooking More.order 1000 11
                            (Ex.shop "accepted")))) 11 "status"
    = Some (VStr "paid").
Proof.
  split; [by split|].
  destruct (createBooking_verbatim More.order 1000 11 (Ex.shop "accepted")
              eq_refl eq_refl) as (H1 & _ & _).
  split; [exact H1 | reflexivity].
Defined.

Lemma saveTransaction_twice_witness :
  (More.receipt !! "_id" = None
   ∧ (300 ≠ 301)%N
   ∧ findOne (by_id 300) (transactions (Ex.shop "paid")) = None
   ∧ findOne (by_id 301) (transactions (Ex.shop "paid")) = None)
  ∧ fst (saveTransaction More.receipt 2000 301
           (snd (saveTransaction More.receipt 1000 300 (Ex.shop "paid"))))
    = Resp 201 "Transaction saved successfully"
  ∧ length (transactions
              (snd (saveTransaction More.receipt 2000 301
                      (snd (saveTransaction More.receipt 1000 300
                              (Ex.shop "paid")))))) = 2%nat.
Proof.
  assert (Hne : (300 ≠ 301)%N) by discriminate.
  split; [by repeat split|].
  destruct (saveTransaction_twice More.receipt 1000 2000 300 301
              (Ex.shop "paid") eq_refl Hne eq_refl eq_refl) as (_ & H2 & _).
  split; [exact H2 | reflexivity].
Defined.

End MoreExamples.
